(** * Survey Form API: response lifecycle and validation

    A shallow embedding of the Gin handlers of [main.go] (surveys, survey
    responses, the 24-hour edit window) over an explicit model of the two
    SQLite tables, followed by the properties of the design document that
    are settled on it.

    Conventions.
    - A handler [h(c *gin.Context)] becomes a function of the database, of
      the instant at which the request is served, of its path parameters
      (strings, as [c.Param] yields them) and of its body; it returns the
      database after the request and what was passed to [c.JSON].
    - [int] is 64 bits wide; instants are nanoseconds since the Unix epoch.
    - A request is served at one instant: every clock reading made while
      a handler runs, [time.Since] and [CURRENT_TIMESTAMP] alike, sees it
      (the latter to the second).
    - A statement run through [database/sql] is a total function on the
      tables: connection failures are not modelled, constraint failures of
      the schema are. *)

From stdpp Require Import gmap strings list sorting.
From Stdlib Require Import ZArith Lia Ascii String.

Local Open Scope string_scope.
Local Open Scope Z_scope.

(** ** Library values the handlers rely on *)

(** Go [error] values produced by library calls. The handlers only forward
    [err.Error()], so the text is kept symbolic. *)
Inductive error : Type :=
  | NumError (func num : string)          (* strconv: syntax or range *)
  | DecodeError                           (* encoding/json, or an empty body *)
  | ValidationErrors (fields : list string) (* validator: failed 'required' *)
  | NotNullConstraint (column : string)   (* sqlite3: NOT NULL constraint failed *)
  | ErrNoRows.                            (* sql.ErrNoRows *)

(** An element of [APIResponse.Errors]: a literal of the source or the text
    of a library error. *)
Inductive errstr : Type :=
  | Str (s : string)
  | Error (e : error).

Module time.
(** [time.Time] without a monotonic reading, and [time.Duration]. *)
Definition Time := Z.
Definition Duration := Z.

Definition Nanosecond : Duration := 1.
Definition Microsecond : Duration := 1000 * Nanosecond.
Definition Millisecond : Duration := 1000 * Microsecond.
Definition Second : Duration := 1000 * Millisecond.
Definition Minute : Duration := 60 * Second.
Definition Hour : Duration := 60 * Minute.

Definition minDuration : Duration := - 2 ^ 63.
Definition maxDuration : Duration := 2 ^ 63 - 1.

(** [t.Sub(u)]: the difference, saturated to the range of an int64. *)
Definition Sub (t u : Time) : Duration :=
  let d := t - u in
  if d <? minDuration then minDuration
  else if maxDuration <? d then maxDuration
  else d.

(** [time.Since(t)] is [time.Now().Sub(t)]; the clock reading is explicit. *)
Definition Since (now t : Time) : Duration := Sub now t.

(** The zero [Time]: January 1, year 1, 00:00:00 UTC. *)
Definition zero : Time := - 62135596800 * Second.
End time.

Module strconv.
Definition is_digit (a : ascii) : bool :=
  let n := Z.of_nat (nat_of_ascii a) in (48 <=? n) && (n <=? 57).

Fixpoint digits (acc : Z) (s : string) : option Z :=
  match s with
  | EmptyString => Some acc
  | String a s' =>
      if is_digit a
      then digits (10 * acc + (Z.of_nat (nat_of_ascii a) - 48)) s'
      else None
  end.

(** [strconv.Atoi]: an optional sign and one or more decimal digits, the
    value within the range of [int]. *)
Definition Atoi (s : string) : error + Z :=
  let '(neg, ds) :=
    match s with
    | String "-"%char r => (true, r)
    | String "+"%char r => (false, r)
    | _ => (false, s)
    end in
  match ds with
  | EmptyString => inl (NumError "Atoi" s)
  | _ =>
      match digits 0 ds with
      | None => inl (NumError "Atoi" s)
      | Some n =>
          let v := if neg then - n else n in
          if (- 2 ^ 63 <=? v) && (v <? 2 ^ 63) then inr v
          else inl (NumError "Atoi" s)
      end
  end.
End strconv.

Module http.
Definition StatusOK : Z := 200.
Definition StatusCreated : Z := 201.
Definition StatusBadRequest : Z := 400.
Definition StatusNotFound : Z := 404.
Definition StatusUnprocessableEntity : Z := 422.
Definition StatusInternalServerError : Z := 500.
End http.

(** [json.RawMessage]: [None] is the nil slice, which is what the decoder
    leaves when the key is absent from the body. *)
Definition RawMessage := option string.

(** ** Types of [main.go] *)

Record Survey : Type := mkSurvey {
  Survey_ID : Z;
  Title : string;
  Description : string;
  Survey_CreatedAt : time.Time;
  Survey_UpdatedAt : time.Time;
  ResponsesCount : Z
}.

Record SurveyResponse : Type := mkSurveyResponse {
  ID : Z;
  SurveyID : Z;
  UserIdentifier : string;
  ResponseData : RawMessage;
  CreatedAt : time.Time;
  UpdatedAt : time.Time;
  Editable : bool
}.

Record UserResponse : Type := mkUserResponse {
  UR_ID : Z;
  UR_Survey : Survey;
  UR_UserIdentifier : string;
  UR_ResponseData : RawMessage;
  UR_CreatedAt : time.Time;
  UR_UpdatedAt : time.Time;
  UR_Editable : bool
}.

(** [req.Survey.Title], [req.Survey.Description]; both [binding:"required"]. *)
Record CreateSurveyRequest : Type := mkCreateSurveyRequest {
  req_Title : string;
  req_Description : string
}.

(** [req.SurveyResponse.UserIdentifier], [req.SurveyResponse.ResponseData];
    both [binding:"required"]. *)
Record CreateResponseRequest : Type := mkCreateResponseRequest {
  req_UserIdentifier : string;
  req_ResponseData : RawMessage
}.

(** [req.SurveyResponse.ResponseData]; no binding tag. *)
Record UpdateResponseRequest : Type := mkUpdateResponseRequest {
  upd_ResponseData : RawMessage
}.

Record APIResponse (D : Type) : Type := mkAPIResponse {
  Status : string;
  Message : string;
  Data : option D;
  Errors : list errstr
}.
Arguments mkAPIResponse {D} _ _ _ _.
Arguments Status {D} _.
Arguments Message {D} _.
Arguments Data {D} _.
Arguments Errors {D} _.

(** What a handler hands to [c.JSON(code, obj)]. *)
Record Reply (D : Type) : Type := JSON {
  code : Z;
  obj : APIResponse D
}.
Arguments JSON {D} _ _.
Arguments code {D} _.
Arguments obj {D} _.

(** The request body as [encoding/json] sees it: not decodable into the
    request struct, or decoded, every absent key left at its zero value. *)
Inductive Body (A : Type) : Type :=
  | Malformed
  | Decoded (a : A).
Arguments Malformed {A}.
Arguments Decoded {A} _.

(** ** The database

    [initDatabase] creates two tables, both [id INTEGER PRIMARY KEY
    AUTOINCREMENT]: a table is a finite map from row id to the other columns,
    together with the largest row id ever handed out ([sqlite_sequence]).
    [title], [description], [survey_id], [user_identifier] and
    [response_data] are declared [NOT NULL]; the timestamp columns are
    not, but every statement of the handlers writes them. Foreign keys are
    declared but not switched on for the connection, so they constrain
    nothing: that a response references a survey is kept by the handlers
    (see [referential_integrity]). *)

Record surveys_row : Type := mk_surveys_row {
  title : string;
  description : string;
  s_created_at : time.Time;
  s_updated_at : time.Time
}.

Record survey_responses_row : Type := mk_survey_responses_row {
  survey_id : Z;
  user_identifier : string;
  response_data : string;
  created_at : time.Time;
  updated_at : time.Time
}.

Record DB : Type := mkDB {
  surveys : gmap Z surveys_row;
  surveys_seq : Z;
  survey_responses : gmap Z survey_responses_row;
  survey_responses_seq : Z
}.

Definition empty_db : DB := mkDB ∅ 0 ∅ 0.

Module sql.
(** [CURRENT_TIMESTAMP] has a resolution of one second. *)
Definition CURRENT_TIMESTAMP (now : time.Time) : time.Time :=
  now - now mod time.Second.

Definition max_rowid {A} (tbl : gmap Z A) : Z :=
  foldr Z.max 0 (map_to_list tbl).*1.

(** The row id an AUTOINCREMENT table gives to a new row. (Row ids are
    unbounded here: the failure of SQLite once the id 2^63 - 1 has been
    used is a failure of the store and is not modelled.) *)
Definition new_rowid {A} (tbl : gmap Z A) (seq : Z) : Z :=
  Z.max seq (max_rowid tbl) + 1.

(** [ORDER BY key DESC]: rows come out with keys never increasing. The
    order among equal keys is left open by SQL; the model fixes one. *)
Definition desc {A} (key : A → Z) : relation A := λ x y, key y ≤ key x.

#[global] Instance desc_dec {A} (key : A → Z) x y : Decision (desc key x y) :=
  Z_le_dec (key y) (key x).

Definition order_by_desc {A} (key : A → Z) (rows : list A) : list A :=
  merge_sort (desc key) rows.

(** What reaches the statement for a [json.RawMessage] argument:
    [database/sql] converts it to a [[]byte], and the sqlite3 driver binds
    a nil [[]byte] as SQL NULL and any other as a value. *)
Definition bind_RawMessage (m : RawMessage) : option string := m.
End sql.

(** [SELECT EXISTS(SELECT 1 FROM surveys WHERE id = ?)] *)
Definition survey_exists (db : DB) (id : Z) : bool :=
  bool_decide (is_Some (surveys db !! id)).

(** [INSERT INTO surveys (title, description, created_at, updated_at)
     VALUES (?, ?, CURRENT_TIMESTAMP, CURRENT_TIMESTAMP)], with
    [result.LastInsertId()]. *)
Definition insert_survey (db : DB) (now : time.Time) (t d : string) : DB * Z :=
  let id := sql.new_rowid (surveys db) (surveys_seq db) in
  let ts := sql.CURRENT_TIMESTAMP now in
  (mkDB (<[id := mk_surveys_row t d ts ts]> (surveys db)) id
        (survey_responses db) (survey_responses_seq db),
   id).

(** [SELECT id, title, description, created_at, updated_at,
     0 as responses_count FROM surveys WHERE id = ?] scanned into a [Survey]. *)
Definition select_created_survey (db : DB) (id : Z) : error + Survey :=
  match surveys db !! id with
  | None => inl ErrNoRows
  | Some s =>
      inr (mkSurvey id (title s) (description s)
             (s_created_at s) (s_updated_at s) 0)
  end.

(** The rows of [survey_responses] whose [survey_id] is [sid]. *)
Definition responses_referencing (db : DB) (sid : Z) : list (Z * survey_responses_row) :=
  filter (λ kr, survey_id kr.2 = sid) (map_to_list (survey_responses db)).

(** [FROM surveys s LEFT JOIN survey_responses sr ON s.id = sr.survey_id]:
    every survey row paired with each response row that references it, or
    once with NULL columns when none does. Only [sr.id] is used later. *)
Definition left_join_rows (db : DB) (sid : Z) (s : surveys_row)
  : list (Z * surveys_row * option Z) :=
  match responses_referencing db sid with
  | [] => [(sid, s, None)]
  | matches => (λ kr, (sid, s, Some kr.1)) <$> matches
  end.

Definition surveys_left_join_responses (db : DB)
  : list (Z * surveys_row * option Z) :=
  '(sid, s) ← map_to_list (surveys db); left_join_rows db sid s.

(** [GROUP BY s.id] with the aggregate [COUNT(sr.id)], which counts the
    rows of the group whose [sr.id] is not NULL. *)
Definition group_by_id_count (joined : list (Z * surveys_row * option Z))
  : gmap Z (surveys_row * Z) :=
  foldr (λ '(sid, s, srid) groups,
           let n := match groups !! sid with Some (_, n) => n | None => 0 end in
           <[sid := (s, n + (if srid is Some _ then 1 else 0))]> groups)
        ∅ joined.

Definition scan_survey (g : Z * (surveys_row * Z)) : Survey :=
  let '(id, (s, n)) := g in
  mkSurvey id (title s) (description s) (s_created_at s) (s_updated_at s) n.

(** The query of [getSurveys]: the grouped left join,
    [ORDER BY s.created_at DESC]. *)
Definition select_surveys (db : DB) : list Survey :=
  sql.order_by_desc Survey_CreatedAt
    (scan_survey <$> map_to_list (group_by_id_count (surveys_left_join_responses db))).

(** The query of [getSurvey]: the same join restricted by [WHERE s.id = ?]. *)
Definition select_survey (db : DB) (id : Z) : error + Survey :=
  match group_by_id_count
          (filter (λ j, j.1.1 = id) (surveys_left_join_responses db)) !! id with
  | None => inl ErrNoRows
  | Some g => inr (scan_survey (id, g))
  end.

(** [rows.Scan] / [QueryRow.Scan] into a fresh [SurveyResponse]; [Editable]
    keeps its zero value until the handler assigns it. *)
Definition scan_response (kr : Z * survey_responses_row) : SurveyResponse :=
  mkSurveyResponse kr.1 (survey_id kr.2) (user_identifier kr.2)
    (Some (response_data kr.2)) (created_at kr.2) (updated_at kr.2) false.

Definition set_Editable (r : SurveyResponse) (b : bool) : SurveyResponse :=
  mkSurveyResponse (ID r) (SurveyID r) (UserIdentifier r) (ResponseData r)
    (CreatedAt r) (UpdatedAt r) b.

(** [SELECT ... FROM survey_responses WHERE survey_id = ?
     ORDER BY updated_at DESC] *)
Definition select_responses_of_survey (db : DB) (sid : Z) : list SurveyResponse :=
  sql.order_by_desc UpdatedAt
    (scan_response <$>
       responses_referencing db sid).

(** [SELECT ... FROM survey_responses WHERE id = ? AND survey_id = ?] *)
Definition select_response (db : DB) (rid sid : Z) : error + SurveyResponse :=
  match survey_responses db !! rid with
  | Some r =>
      if decide (survey_id r = sid) then inr (scan_response (rid, r))
      else inl ErrNoRows
  | None => inl ErrNoRows
  end.

(** [SELECT ... FROM survey_responses WHERE id = ?] *)
Definition select_response_by_id (db : DB) (rid : Z) : error + SurveyResponse :=
  match survey_responses db !! rid with
  | Some r => inr (scan_response (rid, r))
  | None => inl ErrNoRows
  end.

(** [INSERT INTO survey_responses (survey_id, user_identifier, response_data,
     created_at, updated_at) VALUES (?, ?, ?, CURRENT_TIMESTAMP,
     CURRENT_TIMESTAMP)], with [result.LastInsertId()]. *)
Definition insert_response (db : DB) (now : time.Time)
    (sid : Z) (uid : string) (data : RawMessage) : error + DB * Z :=
  match sql.bind_RawMessage data with
  | None => inl (NotNullConstraint "survey_responses.response_data")
  | Some d =>
      let id := sql.new_rowid (survey_responses db) (survey_responses_seq db) in
      let ts := sql.CURRENT_TIMESTAMP now in
      inr (mkDB (surveys db) (surveys_seq db)
             (<[id := mk_survey_responses_row sid uid d ts ts]> (survey_responses db))
             id,
           id)
  end.

(** [UPDATE survey_responses SET response_data = ?,
     updated_at = CURRENT_TIMESTAMP WHERE id = ? AND survey_id = ?].
    The NOT NULL constraint is checked on the row that is about to change:
    a statement that matches no row succeeds and changes nothing. *)
Definition update_response (db : DB) (now : time.Time)
    (data : RawMessage) (rid sid : Z) : error + DB :=
  match survey_responses db !! rid with
  | Some r =>
      if decide (survey_id r = sid) then
        match sql.bind_RawMessage data with
        | None => inl (NotNullConstraint "survey_responses.response_data")
        | Some d =>
            inr (mkDB (surveys db) (surveys_seq db)
                   (<[rid := mk_survey_responses_row (survey_id r)
                               (user_identifier r) d (created_at r)
                               (sql.CURRENT_TIMESTAMP now)]> (survey_responses db))
                   (survey_responses_seq db))
        end
      else inr db
  | None => inr db
  end.

(** The query of [getUserResponses]: [FROM survey_responses sr JOIN surveys s
    ON sr.survey_id = s.id WHERE sr.user_identifier = ?
    ORDER BY sr.updated_at DESC], each row scanned into a [UserResponse]
    whose [Survey] carries [s.id], [s.title], [s.description] and zero
    values elsewhere. *)
Definition joined_user_response (db : DB) (uid : string)
    (kr : Z * survey_responses_row) : list UserResponse :=
  let '(rid, r) := kr in
  match surveys db !! survey_id r with
  | Some s =>
      if decide (user_identifier r = uid) then
        [mkUserResponse rid
           (mkSurvey (survey_id r) (title s) (description s) time.zero time.zero 0)
           (user_identifier r) (Some (response_data r))
           (created_at r) (updated_at r) false]
      else []
  | None => []
  end.

Definition select_user_responses (db : DB) (uid : string) : list UserResponse :=
  sql.order_by_desc UR_UpdatedAt
    (map_to_list (survey_responses db) ≫= joined_user_response db uid).

Definition set_UR_Editable (r : UserResponse) (b : bool) : UserResponse :=
  mkUserResponse (UR_ID r) (UR_Survey r) (UR_UserIdentifier r) (UR_ResponseData r)
    (UR_CreatedAt r) (UR_UpdatedAt r) b.

(** ** Request binding

    [c.ShouldBindJSON(&req)] decodes the body and then checks the
    [binding:"required"] tags: a required string must differ from [""], a
    required [json.RawMessage] must not be nil. *)

Definition required_string (field v : string) : list string :=
  if decide (v = "") then [field] else [].

Definition required_RawMessage (field : string) (v : RawMessage) : list string :=
  if v is None then [field] else [].

Definition validate_required {A} (failed : list string) (req : A) : error + A :=
  match failed with
  | [] => inr req
  | _ => inl (ValidationErrors failed)
  end.

Definition ShouldBindJSON_CreateSurveyRequest (b : Body CreateSurveyRequest)
  : error + CreateSurveyRequest :=
  match b with
  | Malformed => inl DecodeError
  | Decoded req =>
      validate_required
        (required_string "CreateSurveyRequest.Survey.Title" (req_Title req) ++
         required_string "CreateSurveyRequest.Survey.Description" (req_Description req))%list
        req
  end.

Definition ShouldBindJSON_CreateResponseRequest (b : Body CreateResponseRequest)
  : error + CreateResponseRequest :=
  match b with
  | Malformed => inl DecodeError
  | Decoded req =>
      validate_required
        (required_string "CreateResponseRequest.SurveyResponse.UserIdentifier"
           (req_UserIdentifier req) ++
         required_RawMessage "CreateResponseRequest.SurveyResponse.ResponseData"
           (req_ResponseData req))%list
        req
  end.

Definition ShouldBindJSON_UpdateResponseRequest (b : Body UpdateResponseRequest)
  : error + UpdateResponseRequest :=
  match b with
  | Malformed => inl DecodeError
  | Decoded req => inr req
  end.

(** ** The handlers *)

(** [len(s)] of a Go string: its number of bytes. *)
Definition len (s : string) : Z := Z.of_nat (String.length s).

(** The expression [time.Since(response.CreatedAt) < 24*time.Hour], which
    [main.go] writes out at every place that sets [Editable]. *)
Definition within_24_hours (now createdAt : time.Time) : bool :=
  time.Since now createdAt <? 24 * time.Hour.

(** [getSurveys] *)
Definition getSurveys (db : DB) : Reply (list Survey) :=
  JSON http.StatusOK (mkAPIResponse "success" "" (Some (select_surveys db)) []).

(** [getSurvey] *)
Definition getSurvey (db : DB) (id : string) : Reply Survey :=
  match strconv.Atoi id with
  | inl err =>
      JSON http.StatusBadRequest
        (mkAPIResponse "error" "Invalid survey ID" None [Error err])
  | inr surveyID =>
      match select_survey db surveyID with
      | inl ErrNoRows =>
          JSON http.StatusNotFound (mkAPIResponse "error" "Survey not found" None [])
      | inl err =>
          JSON http.StatusInternalServerError
            (mkAPIResponse "error" "Failed to fetch survey" None [Error err])
      | inr survey =>
          JSON http.StatusOK (mkAPIResponse "success" "" (Some survey) [])
      end
  end.

(** The validation block of [createSurvey]: the slice [errors] after the
    three [if] statements. *)
Definition survey_errors (req : CreateSurveyRequest) : list errstr :=
  let errors := [] in
  let errors :=
    if len (req_Title req) <? 3
    then (errors ++ [Str "Title must be at least 3 characters long"])%list else errors in
  let errors :=
    if 255 <? len (req_Title req)
    then (errors ++ [Str "Title must be less than 255 characters"])%list else errors in
  let errors :=
    if 1000 <? len (req_Description req)
    then (errors ++ [Str "Description must be less than 1000 characters"])%list else errors in
  errors.

(** [createSurvey] *)
Definition createSurvey (db : DB) (now : time.Time) (body : Body CreateSurveyRequest)
  : DB * Reply Survey :=
  match ShouldBindJSON_CreateSurveyRequest body with
  | inl err =>
      (db, JSON http.StatusBadRequest
             (mkAPIResponse "error" "Invalid request data" None [Error err]))
  | inr req =>
      let errors := survey_errors req in
      if 0 <? Z.of_nat (List.length errors) then
        (db, JSON http.StatusUnprocessableEntity
               (mkAPIResponse "error" "Failed to create survey" None errors))
      else
        let '(db, id) := insert_survey db now (req_Title req) (req_Description req) in
        match select_created_survey db id with
        | inl err =>
            (db, JSON http.StatusInternalServerError
                   (mkAPIResponse "error" "Failed to fetch created survey" None
                      [Error err]))
        | inr survey =>
            (db, JSON http.StatusCreated
                   (mkAPIResponse "success" "Survey created successfully"
                      (Some survey) []))
        end
  end.

(** [getSurveyResponses] *)
Definition getSurveyResponses (db : DB) (now : time.Time) (surveyID : string)
  : Reply (list SurveyResponse) :=
  match strconv.Atoi surveyID with
  | inl err =>
      JSON http.StatusBadRequest
        (mkAPIResponse "error" "Invalid survey ID" None [Error err])
  | inr id =>
      if negb (survey_exists db id) then
        JSON http.StatusNotFound (mkAPIResponse "error" "Survey not found" None [])
      else
        let responses :=
          (λ response,
             set_Editable response (within_24_hours now (CreatedAt response)))
            <$> select_responses_of_survey db id in
        JSON http.StatusOK (mkAPIResponse "success" "" (Some responses) [])
  end.

(** [getSurveyResponse] *)
Definition getSurveyResponse (db : DB) (now : time.Time)
    (surveyID responseID : string) : Reply SurveyResponse :=
  match strconv.Atoi surveyID with
  | inl err =>
      JSON http.StatusBadRequest
        (mkAPIResponse "error" "Invalid survey ID" None [Error err])
  | inr sID =>
      match strconv.Atoi responseID with
      | inl err =>
          JSON http.StatusBadRequest
            (mkAPIResponse "error" "Invalid response ID" None [Error err])
      | inr rID =>
          match select_response db rID sID with
          | inl ErrNoRows =>
              JSON http.StatusNotFound
                (mkAPIResponse "error" "Survey response not found" None [])
          | inl err =>
              JSON http.StatusInternalServerError
                (mkAPIResponse "error" "Failed to fetch response" None [Error err])
          | inr response =>
              let response :=
                set_Editable response (within_24_hours now (CreatedAt response)) in
              JSON http.StatusOK (mkAPIResponse "success" "" (Some response) [])
          end
      end
  end.

(** The validation block of [createSurveyResponse]. *)
Definition response_errors (req : CreateResponseRequest) : list errstr :=
  let errors := [] in
  let errors :=
    if len (req_UserIdentifier req) <? 3
    then (errors ++ [Str "User identifier must be at least 3 characters long"])%list
    else errors in
  let errors :=
    if 100 <? len (req_UserIdentifier req)
    then (errors ++ [Str "User identifier must be less than 100 characters"])%list
    else errors in
  errors.

(** [createSurveyResponse] *)
Definition createSurveyResponse (db : DB) (now : time.Time) (surveyID : string)
    (body : Body CreateResponseRequest) : DB * Reply SurveyResponse :=
  match strconv.Atoi surveyID with
  | inl err =>
      (db, JSON http.StatusBadRequest
             (mkAPIResponse "error" "Invalid survey ID" None [Error err]))
  | inr sID =>
      if negb (survey_exists db sID) then
        (db, JSON http.StatusNotFound
               (mkAPIResponse "error" "Survey not found" None []))
      else
        match ShouldBindJSON_CreateResponseRequest body with
        | inl err =>
            (db, JSON http.StatusBadRequest
                   (mkAPIResponse "error" "Invalid request data" None [Error err]))
        | inr req =>
            let errors := response_errors req in
            if 0 <? Z.of_nat (List.length errors) then
              (db, JSON http.StatusUnprocessableEntity
                     (mkAPIResponse "error" "Failed to submit survey response"
                        None errors))
            else
              match insert_response db now sID (req_UserIdentifier req)
                      (req_ResponseData req) with
              | inl err =>
                  (db, JSON http.StatusInternalServerError
                         (mkAPIResponse "error" "Failed to submit survey response"
                            None [Error err]))
              | inr (db, id) =>
                  match select_response_by_id db id with
                  | inl err =>
                      (db, JSON http.StatusInternalServerError
                             (mkAPIResponse "error" "Failed to fetch created response"
                                None [Error err]))
                  | inr response =>
                      let response := set_Editable response true in
                      (db, JSON http.StatusCreated
                             (mkAPIResponse "success"
                                "Survey response submitted successfully"
                                (Some response) []))
                  end
              end
        end
  end.

(** [updateSurveyResponse] *)
Definition updateSurveyResponse (db : DB) (now : time.Time)
    (surveyID responseID : string) (body : Body UpdateResponseRequest)
  : DB * Reply SurveyResponse :=
  match strconv.Atoi surveyID with
  | inl err =>
      (db, JSON http.StatusBadRequest
             (mkAPIResponse "error" "Invalid survey ID" None [Error err]))
  | inr sID =>
      match strconv.Atoi responseID with
      | inl err =>
          (db, JSON http.StatusBadRequest
                 (mkAPIResponse "error" "Invalid response ID" None [Error err]))
      | inr rID =>
          match select_response db rID sID with
          | inl ErrNoRows =>
              (db, JSON http.StatusNotFound
                     (mkAPIResponse "error" "Survey response not found" None []))
          | inl err =>
              (db, JSON http.StatusInternalServerError
                     (mkAPIResponse "error" "Failed to fetch response" None
                        [Error err]))
          | inr response =>
              if 24 * time.Hour <=? time.Since now (CreatedAt response) then
                (db, JSON http.StatusUnprocessableEntity
                       (mkAPIResponse "error"
                          "Response cannot be edited after 24 hours" None []))
              else
                match ShouldBindJSON_UpdateResponseRequest body with
                | inl err =>
                    (db, JSON http.StatusBadRequest
                           (mkAPIResponse "error" "Invalid request data" None
                              [Error err]))
                | inr req =>
                    match update_response db now (upd_ResponseData req) rID sID with
                    | inl err =>
                        (db, JSON http.StatusInternalServerError
                               (mkAPIResponse "error"
                                  "Failed to update survey response" None
                                  [Error err]))
                    | inr db =>
                        match select_response_by_id db rID with
                        | inl err =>
                            (db, JSON http.StatusInternalServerError
                                   (mkAPIResponse "error"
                                      "Failed to fetch updated response" None
                                      [Error err]))
                        | inr response =>
                            let response :=
                              set_Editable response
                                (within_24_hours now (CreatedAt response)) in
                            (db, JSON http.StatusOK
                                   (mkAPIResponse "success"
                                      "Survey response updated successfully"
                                      (Some response) []))
                        end
                    end
                end
          end
      end
  end.

(** [getUserResponses] *)
Definition getUserResponses (db : DB) (now : time.Time) (userIdentifier : string)
  : Reply (list UserResponse) :=
  let responses :=
    (λ response,
       set_UR_Editable response (within_24_hours now (UR_CreatedAt response)))
      <$> select_user_responses db userIdentifier in
  JSON http.StatusOK (mkAPIResponse "success" "" (Some responses) []).

(** ** Vocabulary of the design document

    The document names the operations [createSurvey], [listSurveys],
    [createResponse], [getResponse], [updateResponse], [listResponsesByUser]
    and tags their failures; the handlers answer with a status code and an
    [APIResponse]. The tags are read off the replies as follows. *)

Definition Succeeded {D} (r : Reply D) : Prop :=
  Status (obj r) = "success" ∧ Errors (obj r) = [].

Definition NotFound {D} (r : Reply D) : Prop :=
  code r = http.StatusNotFound ∧ Status (obj r) = "error" ∧ Data (obj r) = None.

Definition ValidationFailed {D} (messages : list errstr) (r : Reply D) : Prop :=
  code r = http.StatusUnprocessableEntity ∧ Status (obj r) = "error" ∧
  Data (obj r) = None ∧ Errors (obj r) = messages ∧ messages ≠ [].

Definition EditWindowExpired {D} (r : Reply D) : Prop :=
  r = JSON http.StatusUnprocessableEntity
        (mkAPIResponse "error" "Response cannot be edited after 24 hours" None []).

Definition StructuralParseFailure {D} (r : Reply D) : Prop :=
  code r = http.StatusBadRequest ∧ Message (obj r) = "Invalid request data".

Definition StoreError {D} (r : Reply D) : Prop :=
  code r = http.StatusInternalServerError.

(** The design document states the length bounds in characters; the
    handlers compare [len], the number of bytes. The characters (code
    points) of a UTF-8 string are its bytes other than continuation bytes
    [10xxxxxx]; on a string of single-byte characters the two counts are
    the same. *)
Definition continuation_byte (a : ascii) : bool :=
  let n := Z.of_nat (nat_of_ascii a) in (128 <=? n) && (n <? 192).

Fixpoint characters (s : string) : Z :=
  match s with
  | EmptyString => 0
  | String a s' => (if continuation_byte a then 0 else 1) + characters s'
  end.

Fixpoint single_byte_characters (s : string) : bool :=
  match s with
  | EmptyString => true
  | String a s' => (Z.of_nat (nat_of_ascii a) <? 128) && single_byte_characters s'
  end.

(** The two bytes of the UTF-8 encoding of U+00E9, e with acute accent. *)
Definition e_acute : string :=
  String "195"%char (String "169"%char EmptyString).

(** The [responseData] value an update payload supplies, if any. *)
Definition supplied_ResponseData (body : Body UpdateResponseRequest) : RawMessage :=
  match body with
  | Malformed => None
  | Decoded req => upd_ResponseData req
  end.

(** Every response row references a survey row. *)
Definition referential_integrity (db : DB) : Prop :=
  map_Forall (λ _ r, is_Some (surveys db !! survey_id r)) (survey_responses db).

(** The requests that write, and the databases they lead to from the empty
    one. *)
Inductive request : Type :=
  | POST_surveys (body : Body CreateSurveyRequest)
  | POST_responses (surveyID : string) (body : Body CreateResponseRequest)
  | PATCH_response (surveyID responseID : string) (body : Body UpdateResponseRequest).

Definition serve (db : DB) (now : time.Time) (rq : request) : DB :=
  match rq with
  | POST_surveys body => (createSurvey db now body).1
  | POST_responses surveyID body => (createSurveyResponse db now surveyID body).1
  | PATCH_response surveyID responseID body =>
      (updateSurveyResponse db now surveyID responseID body).1
  end.

Inductive reachable : DB → Prop :=
  | reachable_empty : reachable empty_db
  | reachable_serve db now rq : reachable db → reachable (serve db now rq).

(** The row an accepted update of row [r] leaves behind. *)
Definition updated_row (now : time.Time) (r : survey_responses_row) (d : string)
  : survey_responses_row :=
  mk_survey_responses_row (survey_id r) (user_identifier r) d (created_at r)
    (sql.CURRENT_TIMESTAMP now).


(** ** [seed.go]

    The sample-data program works on the same database file. Its [main]
    empties both tables, inserts three surveys and four responses, and
    prints how many rows each table then holds; any failing statement ends
    it through [log.Fatal]. *)

Module seed.
(** [json.Marshal] of a [map[string]interface{}] whose values are strings
    that need no escaping (as all values of [seed.go] are): an object with
    the keys in sorted order. *)
Definition quote : string := String "034"%char EmptyString.

Definition member (kv : string * string) : string :=
  (quote ++ kv.1 ++ quote ++ ":" ++ quote ++ kv.2 ++ quote)%string.

Fixpoint insert_sorted (kv : string * string) (l : list (string * string))
  : list (string * string) :=
  match l with
  | [] => [kv]
  | kv' :: l' =>
      if String.leb kv.1 kv'.1 then kv :: l else kv' :: insert_sorted kv l'
  end.

Definition Marshal (m : list (string * string)) : string :=
  ("{" ++ String.concat "," (member <$> foldr insert_sorted [] m) ++ "}")%string.

Definition survey1Data : string * string :=
  ("Customer Satisfaction Survey",
   "Help us improve our services by providing your feedback on your recent experience.").

Definition survey2Data : string * string :=
  ("Employee Engagement Survey",
   "We value your opinion! Please share your thoughts about workplace culture and satisfaction.").

Definition survey3Data : string * string :=
  ("Product Feedback Form",
   "Tell us what you think about our latest product features and how we can make them better.").

Definition response1Data : list (string * string) :=
  [("overall_satisfaction", "5");
   ("service_quality", "4");
   ("recommendation_likelihood", "5");
   ("comments", "Great service, very satisfied!")].

Definition response2Data : list (string * string) :=
  [("overall_satisfaction", "3");
   ("service_quality", "4");
   ("recommendation_likelihood", "3");
   ("comments", "Service was okay, room for improvement.")].

Definition response3Data : list (string * string) :=
  [("workplace_culture", "4");
   ("job_satisfaction", "5");
   ("work_life_balance", "4");
   ("management_support", "5");
   ("suggestions", "More team building activities would be great!")].

Definition response4Data : list (string * string) :=
  [("product_rating", "4");
   ("feature_usefulness", "5");
   ("ease_of_use", "4");
   ("additional_features", "Mobile app would be helpful");
   ("overall_impression", "Very good product!")].

(** [DELETE FROM survey_responses] and [DELETE FROM surveys]: the rows go,
    the AUTOINCREMENT sequences stay. *)
Definition delete_survey_responses (db : DB) : DB :=
  mkDB (surveys db) (surveys_seq db) ∅ (survey_responses_seq db).

Definition delete_surveys (db : DB) : DB :=
  mkDB ∅ (surveys_seq db) (survey_responses db) (survey_responses_seq db).

(** [INSERT INTO surveys (title, description) VALUES (?, ?)]: both
    timestamps take their default, [CURRENT_TIMESTAMP], which makes the
    statement the one of [createSurvey]. *)
Definition insert_sample_survey (db : DB) (now : time.Time)
    (data : string * string) : DB * Z :=
  insert_survey db now data.1 data.2.

(** [INSERT INTO survey_responses (survey_id, user_identifier,
    response_data) VALUES (?, ?, ?)], likewise, with the marshalled bytes
    as [response_data]. *)
Definition insert_sample_response (db : DB) (now : time.Time)
    (surveyID : Z) (uid : string) (responseData : list (string * string))
  : error + DB :=
  match insert_response db now surveyID uid (Some (Marshal responseData)) with
  | inl err => inl err
  | inr (db, _) => inr db
  end.

(** [main]: the database it leaves and the two counts it prints. *)
Definition main (db : DB) (now : time.Time) : error + DB * (Z * Z) :=
  let db := delete_survey_responses db in
  let db := delete_surveys db in
  let '(db, survey1ID) := insert_sample_survey db now survey1Data in
  let '(db, survey2ID) := insert_sample_survey db now survey2Data in
  let '(db, survey3ID) := insert_sample_survey db now survey3Data in
  match insert_sample_response db now survey1ID "user123" response1Data with
  | inl err => inl err
  | inr db =>
  match insert_sample_response db now survey1ID "user456" response2Data with
  | inl err => inl err
  | inr db =>
  match insert_sample_response db now survey2ID "employee001" response3Data with
  | inl err => inl err
  | inr db =>
  match insert_sample_response db now survey3ID "customer789" response4Data with
  | inl err => inl err
  | inr db =>
      let surveyCount := Z.of_nat (size (surveys db)) in
      let responseCount := Z.of_nat (size (survey_responses db)) in
      inr (db, (surveyCount, responseCount))
  end end end end.
End seed.

(** ** A small run, used to exercise the statements below

    At [t0] a survey is created, five seconds later a response to it. *)

Definition t0 : time.Time := 1700000000 * time.Second + 123456789.

Definition db1 : DB :=
  (createSurvey empty_db t0
     (Decoded (mkCreateSurveyRequest "Test Survey" "Test Description"))).1.

Definition db2 : DB :=
  (createSurveyResponse db1 (t0 + 5 * time.Second) "1"
     (Decoded (mkCreateResponseRequest "testuser" (Some "{}")))).1.

Definition row1 : survey_responses_row :=
  mk_survey_responses_row 1 "testuser" "{}"
    (1700000005 * time.Second) (1700000005 * time.Second).

(** * Properties *)

(** ** The edit window *)

Lemma Since_saturates_far_from_24h (now t : time.Time) :
  (time.Since now t <? 24 * time.Hour) = (now - t <? 24 * time.Hour).
Proof.
  unfold time.Since, time.Sub, time.minDuration, time.maxDuration.
  assert (H24 : 24 * time.Hour = 86400000000000) by reflexivity.
  rewrite H24.
  repeat case_match; lia.
Qed.

Lemma within_24_hours_spec (now t : time.Time) :
  within_24_hours now t = true ↔ now - t < 24 * time.Hour.
Proof.
  unfold within_24_hours. rewrite Since_saturates_far_from_24h.
  apply Z.ltb_lt.
Qed.

Lemma update_gate_is_negation (now t : time.Time) :
  (24 * time.Hour <=? time.Since now t) = negb (within_24_hours now t).
Proof. unfold within_24_hours. rewrite Z.ltb_antisym. by rewrite negb_involutive. Qed.

Lemma scan_response_fields (id : Z) (r : survey_responses_row) :
  scan_response (id, r) =
    mkSurveyResponse id (survey_id r) (user_identifier r) (Some (response_data r))
      (created_at r) (updated_at r) false.
Proof. reflexivity. Qed.

Section stored_response.
(** A request that addresses response [rID] under survey [sID], where the
    table holds such a row. *)
Context (db : DB) (now : time.Time) (surveyID responseID : string).
Context (sID rID : Z) (r : survey_responses_row).
Hypothesis HsID : strconv.Atoi surveyID = inr sID.
Hypothesis HrID : strconv.Atoi responseID = inr rID.
Hypothesis Hrow : survey_responses db !! rID = Some r.
Hypothesis Hscope : survey_id r = sID.

Lemma select_response_stored :
  select_response db rID sID = inr (scan_response (rID, r)).
Proof using Hrow Hscope.
  unfold select_response. rewrite Hrow. by rewrite decide_True.
Qed.

Lemma getSurveyResponse_stored :
  getSurveyResponse db now surveyID responseID =
    JSON http.StatusOK
      (mkAPIResponse "success" ""
         (Some (set_Editable (scan_response (rID, r))
                  (within_24_hours now (created_at r)))) []).
Proof using HsID HrID Hrow Hscope.
  unfold getSurveyResponse. by rewrite HsID, HrID, select_response_stored.
Qed.

Lemma update_response_stored (d : string) :
  update_response db now (Some d) rID sID =
    inr (mkDB (surveys db) (surveys_seq db)
           (<[rID := updated_row now r d]> (survey_responses db))
           (survey_responses_seq db)).
Proof using Hrow Hscope.
  unfold update_response. by rewrite Hrow, decide_True.
Qed.

Lemma update_response_null :
  update_response db now None rID sID =
    inl (NotNullConstraint "survey_responses.response_data").
Proof using Hrow Hscope.
  unfold update_response. by rewrite Hrow, decide_True.
Qed.

Lemma updateSurveyResponse_stored (body : Body UpdateResponseRequest) :
  updateSurveyResponse db now surveyID responseID body =
    if within_24_hours now (created_at r) then
      match body with
      | Malformed =>
          (db, JSON http.StatusBadRequest
                 (mkAPIResponse "error" "Invalid request data" None
                    [Error DecodeError]))
      | Decoded req =>
          match upd_ResponseData req with
          | None =>
              (db, JSON http.StatusInternalServerError
                     (mkAPIResponse "error" "Failed to update survey response" None
                        [Error (NotNullConstraint "survey_responses.response_data")]))
          | Some d =>
              (mkDB (surveys db) (surveys_seq db)
                 (<[rID := updated_row now r d]> (survey_responses db))
                 (survey_responses_seq db),
               JSON http.StatusOK
                 (mkAPIResponse "success" "Survey response updated successfully"
                    (Some (set_Editable (scan_response (rID, updated_row now r d))
                             (within_24_hours now (created_at r)))) []))
          end
      end
    else
      (db, JSON http.StatusUnprocessableEntity
             (mkAPIResponse "error" "Response cannot be edited after 24 hours"
                None [])).
Proof using HsID HrID Hrow Hscope.
  unfold updateSurveyResponse.
  rewrite HsID, HrID, select_response_stored, scan_response_fields.
  cbn [CreatedAt]. rewrite update_gate_is_negation.
  destruct (within_24_hours now (created_at r)) eqn:Hw; cbn [negb]; [|done].
  destruct body as [|[[d|]]]; unfold ShouldBindJSON_UpdateResponseRequest;
    cbn [upd_ResponseData]; [done| |].
  - rewrite update_response_stored.
    unfold select_response_by_id. cbn [survey_responses].
    rewrite lookup_insert_eq. cbn. by rewrite Hw.
  - by rewrite update_response_null.
Qed.


(** C2. On an editable response, an update whose payload supplies no
    [response_data] writes nothing: the database after the request is the
    database before it, so [response_data] and [updated_at] of the row
    keep their values. When a value is supplied, it replaces
    [response_data], [updated_at] is set to the current timestamp, and
    every other column, every other row and the surveys stay as they
    were. *)
Theorem update_without_response_data_writes_nothing
    (body : Body UpdateResponseRequest) :
  within_24_hours now (created_at r) = true →
  let db' := (updateSurveyResponse db now surveyID responseID body).1 in
  match supplied_ResponseData body with
  | None => db' = db ∧ survey_responses db' !! rID = Some r
  | Some d =>
      survey_responses db' !! rID =
        Some (mk_survey_responses_row (survey_id r) (user_identifier r) d
                (created_at r) (sql.CURRENT_TIMESTAMP now)) ∧
      (∀ id, id ≠ rID → survey_responses db' !! id = survey_responses db !! id) ∧
      surveys db' = surveys db
  end.
Proof using HsID HrID Hrow Hscope.
  intros Hed. rewrite updateSurveyResponse_stored, Hed.
  destruct body as [|[[d|]]]; cbn; [done| |done].
  split; [by rewrite lookup_insert_eq|].
  split; [|done]. intros id Hne. by rewrite lookup_insert_ne.
Qed.

(** C3. For a response created 24 hours or more before the current time,
    [updateSurveyResponse] answers EditWindowExpired and the database is
    left as it was, in particular [response_data] and [updated_at] of the
    row. *)
Theorem update_after_24h_is_rejected_without_write
    (body : Body UpdateResponseRequest) :
  24 * time.Hour ≤ now - created_at r →
  let res := updateSurveyResponse db now surveyID responseID body in
  EditWindowExpired res.2 ∧ res.1 = db ∧
  survey_responses res.1 !! rID = Some r.
Proof using HsID HrID Hrow Hscope.
  intros Hold. cbn zeta. rewrite updateSurveyResponse_stored.
  destruct (within_24_hours now (created_at r)) eqn:Hw.
  - apply within_24_hours_spec in Hw. lia.
  - done.
Qed.
End stored_response.

Lemma select_response_absent (db : DB) (rID sID : Z) :
  (∀ r, survey_responses db !! rID = Some r → survey_id r ≠ sID) →
  select_response db rID sID = inl ErrNoRows.
Proof.
  intros Habs. unfold select_response.
  destruct (survey_responses db !! rID) as [r|] eqn:Hrow; [|done].
  rewrite decide_False; [done|]. by apply Habs.
Qed.

Lemma stored_or_absent (db : DB) (rID sID : Z) :
  (∃ r, survey_responses db !! rID = Some r ∧ survey_id r = sID) ∨
  (∀ r, survey_responses db !! rID = Some r → survey_id r ≠ sID).
Proof.
  destruct (survey_responses db !! rID) as [r|]; [|by right].
  destruct (decide (survey_id r = sID)); [left; by exists r|].
  right. by intros ? [= <-].
Qed.

Lemma updateSurveyResponse_absent (db : DB) (now : time.Time)
    (surveyID responseID : string) (sID rID : Z) (body : Body UpdateResponseRequest) :
  strconv.Atoi surveyID = inr sID →
  strconv.Atoi responseID = inr rID →
  (∀ r, survey_responses db !! rID = Some r → survey_id r ≠ sID) →
  updateSurveyResponse db now surveyID responseID body =
    (db, JSON http.StatusNotFound
           (mkAPIResponse "error" "Survey response not found" None [])).
Proof.
  intros HsID HrID Habs. unfold updateSurveyResponse.
  by rewrite HsID, HrID, select_response_absent.
Qed.

(** C9. [updateSurveyResponse] looks the response up and applies the edit
    window before it reads the body. Whatever the body is, malformed
    included: a response whose window has expired yields EditWindowExpired
    and not a structural-parse failure, and an absent response yields
    NotFound; a structural-parse failure is only ever reported for a
    malformed body sent to a response that exists under the survey and is
    still editable. *)
Theorem update_checks_policy_before_parsing (db : DB) (now : time.Time)
    (surveyID responseID : string) (sID rID : Z) (body : Body UpdateResponseRequest) :
  strconv.Atoi surveyID = inr sID →
  strconv.Atoi responseID = inr rID →
  let reply := (updateSurveyResponse db now surveyID responseID body).2 in
  (∀ r, survey_responses db !! rID = Some r → survey_id r = sID →
        24 * time.Hour ≤ now - created_at r →
        EditWindowExpired reply ∧ ¬ StructuralParseFailure reply) ∧
  ((∀ r, survey_responses db !! rID = Some r → survey_id r ≠ sID) →
        NotFound reply ∧ ¬ StructuralParseFailure reply) ∧
  (StructuralParseFailure reply →
        body = Malformed ∧
        ∃ r, survey_responses db !! rID = Some r ∧ survey_id r = sID ∧
             now - created_at r < 24 * time.Hour).
Proof.
  intros HsID HrID reply. subst reply.
  split; [|split].
  - intros r Hrow Hsc Hold.
    rewrite (updateSurveyResponse_stored _ _ _ _ _ _ _ HsID HrID Hrow Hsc).
    destruct (within_24_hours now (created_at r)) eqn:Hw.
    + apply within_24_hours_spec in Hw. lia.
    + split; [done|]. by intros [[=] _].
  - intros Habs.
    rewrite (updateSurveyResponse_absent _ _ _ _ _ _ _ HsID HrID Habs).
    split; [done|]. by intros [[=] _].
  - intros Hparse.
    destruct (stored_or_absent db rID sID) as [(r & Hrow & Hsc)|Habs].
    + rewrite (updateSurveyResponse_stored _ _ _ _ _ _ _ HsID HrID Hrow Hsc)
        in Hparse.
      destruct (within_24_hours now (created_at r)) eqn:Hw;
        [|by destruct Hparse as [[=] _]].
      apply within_24_hours_spec in Hw.
      destruct body as [|[[d|]]]; [|by destruct Hparse as [[=] _]..].
      split; [done|]. by exists r.
    + rewrite (updateSurveyResponse_absent _ _ _ _ _ _ _ HsID HrID Habs) in Hparse.
      by destruct Hparse as [[=] _].
Qed.

(** The list reads set [Editable] with the same expression. *)
Lemma getSurveyResponses_annotation (db : DB) (now : time.Time) (surveyID : string)
    (listed : list SurveyResponse) (response : SurveyResponse) :
  Data (obj (getSurveyResponses db now surveyID)) = Some listed →
  response ∈ listed →
  Editable response = within_24_hours now (CreatedAt response).
Proof.
  unfold getSurveyResponses.
  destruct (strconv.Atoi surveyID) as [err|id]; [done|].
  destruct (survey_exists db id); cbn [negb]; [|done].
  intros [= <-] Hin. apply list_elem_of_fmap in Hin as (r0 & -> & _). done.
Qed.

Lemma getUserResponses_annotation (db : DB) (now : time.Time) (uid : string)
    (listed : list UserResponse) (response : UserResponse) :
  Data (obj (getUserResponses db now uid)) = Some listed →
  response ∈ listed →
  UR_Editable response = within_24_hours now (UR_CreatedAt response).
Proof.
  unfold getUserResponses. intros [= <-] Hin.
  apply list_elem_of_fmap in Hin as (r0 & -> & _). done.
Qed.

(** ** Survey-scoped reads *)

(** C7. [getSurveyResponse] is scoped by the survey: when the table holds no
    row with the given id whose [survey_id] is the given survey, the reply
    is NotFound; in particular a response stored under another survey is
    not returned. *)
Theorem getSurveyResponse_is_survey_scoped (db : DB) (now : time.Time)
    (surveyID responseID : string) (sID rID : Z) :
  strconv.Atoi surveyID = inr sID →
  strconv.Atoi responseID = inr rID →
  let reply := getSurveyResponse db now surveyID responseID in
  ((¬ ∃ r, survey_responses db !! rID = Some r ∧ survey_id r = sID) →
     NotFound reply) ∧
  (∀ r, survey_responses db !! rID = Some r → survey_id r ≠ sID →
     NotFound reply ∧ Data (obj reply) = None).
Proof.
  intros HsID HrID reply.
  assert (Habsent : (∀ r, survey_responses db !! rID = Some r → survey_id r ≠ sID) →
                    NotFound reply ∧ Data (obj reply) = None).
  { intros Habs. subst reply. unfold getSurveyResponse.
    by rewrite HsID, HrID, select_response_absent. }
  split.
  - intros Hnone. apply Habsent. intros r Hrow Hsc. apply Hnone. by exists r.
  - intros r Hrow Hne. apply Habsent. intros r' Hrow'. congruence.
Qed.

(** ** Creating responses *)

Lemma survey_exists_false (db : DB) (sID : Z) :
  surveys db !! sID = None → survey_exists db sID = false.
Proof.
  intros Hnone. unfold survey_exists. rewrite Hnone.
  apply bool_decide_eq_false. by intros [? [=]].
Qed.

Lemma survey_exists_true (db : DB) (sID : Z) :
  is_Some (surveys db !! sID) → survey_exists db sID = true.
Proof. intros Hsome. unfold survey_exists. by apply bool_decide_eq_true. Qed.

(** C4. When the survey id references no survey, [createSurveyResponse]
    answers NotFound and writes no row, whatever the body: the existence
    check comes before binding and validation, so a payload that would fail
    them still yields NotFound. *)
Theorem createSurveyResponse_unknown_survey (db : DB) (now : time.Time)
    (surveyID : string) (sID : Z) (body : Body CreateResponseRequest) :
  strconv.Atoi surveyID = inr sID →
  surveys db !! sID = None →
  let res := createSurveyResponse db now surveyID body in
  NotFound res.2 ∧ Message (obj res.2) = "Survey not found" ∧ res.1 = db.
Proof.
  intros HsID Hnone. cbn zeta. unfold createSurveyResponse.
  by rewrite HsID, survey_exists_false.
Qed.

(** ** Creating surveys *)

Lemma max_rowid_bound {A} (tbl : gmap Z A) (k : Z) :
  is_Some (tbl !! k) → k ≤ sql.max_rowid tbl.
Proof.
  intros [x Hx]. apply elem_of_map_to_list in Hx.
  unfold sql.max_rowid.
  induction (map_to_list tbl) as [|[k' x'] l IH]; [by apply elem_of_nil in Hx|].
  apply elem_of_cons in Hx as [[= <- <-]|Hin]; cbn; [lia|].
  specialize (IH Hin). lia.
Qed.

Lemma new_rowid_fresh {A} (tbl : gmap Z A) (seq : Z) :
  tbl !! sql.new_rowid tbl seq = None.
Proof.
  destruct (tbl !! sql.new_rowid tbl seq) eqn:Hlook; [|done].
  assert (Hb : sql.new_rowid tbl seq ≤ sql.max_rowid tbl)
    by (apply max_rowid_bound; eauto).
  unfold sql.new_rowid in Hb. lia.
Qed.

Lemma len_nonneg (s : string) : 0 ≤ len s.
Proof. unfold len. lia. Qed.

Lemma len_zero (s : string) : len s = 0 ↔ s = "".
Proof. unfold len. destruct s; cbn; split; intros; try done; lia. Qed.

Lemma survey_errors_elem (req : CreateSurveyRequest) (m : errstr) :
  m ∈ survey_errors req ↔
    (m = Str "Title must be at least 3 characters long" ∧ len (req_Title req) < 3) ∨
    (m = Str "Title must be less than 255 characters" ∧ 255 < len (req_Title req)) ∨
    (m = Str "Description must be less than 1000 characters" ∧
       1000 < len (req_Description req)).
Proof.
  unfold survey_errors.
  destruct (Z.ltb_spec (len (req_Title req)) 3);
    destruct (Z.ltb_spec 255 (len (req_Title req)));
    destruct (Z.ltb_spec 1000 (len (req_Description req)));
    cbn; rewrite ?elem_of_cons, ?elem_of_nil; intuition lia.
Qed.

Lemma survey_errors_nil (req : CreateSurveyRequest) :
  survey_errors req = [] ↔
    3 ≤ len (req_Title req) ≤ 255 ∧ len (req_Description req) ≤ 1000.
Proof.
  unfold survey_errors.
  destruct (Z.ltb_spec (len (req_Title req)) 3);
    destruct (Z.ltb_spec 255 (len (req_Title req)));
    destruct (Z.ltb_spec 1000 (len (req_Description req)));
    cbn; split; intros; try done; lia.
Qed.

Lemma bind_survey_request (req : CreateSurveyRequest) :
  req_Title req ≠ "" → req_Description req ≠ "" →
  ShouldBindJSON_CreateSurveyRequest (Decoded req) = inr req.
Proof.
  intros Ht Hd. unfold ShouldBindJSON_CreateSurveyRequest, required_string.
  by rewrite !decide_False.
Qed.

Lemma has_errors {A} (l : list A) : (0 <? Z.of_nat (List.length l)) = negb (bool_decide (l = [])).
Proof. by destruct l. Qed.

Lemma createSurvey_bound (db : DB) (now : time.Time) (req : CreateSurveyRequest) :
  req_Title req ≠ "" → req_Description req ≠ "" →
  createSurvey db now (Decoded req) =
    if bool_decide (survey_errors req = []) then
      let id := sql.new_rowid (surveys db) (surveys_seq db) in
      let ts := sql.CURRENT_TIMESTAMP now in
      (mkDB (<[id := mk_surveys_row (req_Title req) (req_Description req) ts ts]>
               (surveys db))
            id (survey_responses db) (survey_responses_seq db),
       JSON http.StatusCreated
         (mkAPIResponse "success" "Survey created successfully"
            (Some (mkSurvey id (req_Title req) (req_Description req) ts ts 0)) []))
    else
      (db, JSON http.StatusUnprocessableEntity
             (mkAPIResponse "error" "Failed to create survey" None
                (survey_errors req))).
Proof.
  intros Ht Hd. unfold createSurvey.
  rewrite bind_survey_request, has_errors by done.
  destruct (bool_decide (survey_errors req = [])); cbn [negb]; [|done].
  unfold insert_survey, select_created_survey. cbn [surveys].
  by rewrite lookup_insert_eq.
Qed.

Lemma createSurvey_unbound (db : DB) (now : time.Time) (req : CreateSurveyRequest) :
  req_Title req = "" ∨ req_Description req = "" →
  ∃ fields,
    createSurvey db now (Decoded req) =
      (db, JSON http.StatusBadRequest
             (mkAPIResponse "error" "Invalid request data" None
                [Error (ValidationErrors fields)])).
Proof.
  intros Hempty. unfold createSurvey, ShouldBindJSON_CreateSurveyRequest,
    required_string.
  destruct (decide (req_Title req = "")), (decide (req_Description req = ""));
    cbn; eauto. by destruct Hempty.
Qed.

(** The outcomes of [createSurvey] by byte length, for every title and
    description. A title of 3 to 255 bytes with a description of
    1 to 1000 bytes creates a survey: the reply carries it with
    [ResponsesCount = 0] and exactly one row, under a fresh id, is added. A
    non-empty title and description that break a length bound are rejected
    as ValidationFailed with every applicable message and nothing is
    written. An empty title or an empty description fails the
    [binding:"required"] check: the request is rejected as a structural
    parse failure and nothing is written. *)
Theorem createSurvey_outcomes (db : DB) (now : time.Time) (t d : string) :
  let res := createSurvey db now (Decoded (mkCreateSurveyRequest t d)) in
  (3 ≤ len t ≤ 255 → 1 ≤ len d ≤ 1000 →
     ∃ survey,
       res.2 = JSON http.StatusCreated
                 (mkAPIResponse "success" "Survey created successfully"
                    (Some survey) []) ∧
       ResponsesCount survey = 0 ∧ Title survey = t ∧ Description survey = d ∧
       surveys db !! Survey_ID survey = None ∧
       surveys res.1 =
         <[Survey_ID survey := mk_surveys_row t d (sql.CURRENT_TIMESTAMP now)
                                 (sql.CURRENT_TIMESTAMP now)]> (surveys db) ∧
       survey_responses res.1 = survey_responses db) ∧
  (1 ≤ len t → 1 ≤ len d → ¬ (3 ≤ len t ≤ 255 ∧ len d ≤ 1000) →
     ∃ messages,
       ValidationFailed messages res.2 ∧
       (∀ m, m ∈ messages ↔
          (m = Str "Title must be at least 3 characters long" ∧ len t < 3) ∨
          (m = Str "Title must be less than 255 characters" ∧ 255 < len t) ∨
          (m = Str "Description must be less than 1000 characters" ∧ 1000 < len d)) ∧
       res.1 = db) ∧
  (len t = 0 ∨ len d = 0 → StructuralParseFailure res.2 ∧ res.1 = db).
Proof.
  cbn zeta. set (req := mkCreateSurveyRequest t d).
  assert (Hnonempty : 1 ≤ len t → 1 ≤ len d →
                      req_Title req ≠ "" ∧ req_Description req ≠ "").
  { intros Ht Hd. split; intros He%len_zero; cbn in He; lia. }
  split; [|split].
  - intros Ht Hd. destruct Hnonempty as [Ht' Hd']; [lia..|].
    rewrite createSurvey_bound by done.
    rewrite bool_decide_eq_true_2 by (apply survey_errors_nil; cbn; lia).
    eexists. cbn. repeat split. apply new_rowid_fresh.
  - intros Ht Hd Hbad. destruct Hnonempty as [Ht' Hd']; [lia..|].
    rewrite createSurvey_bound by done.
    rewrite bool_decide_eq_false_2 by (rewrite survey_errors_nil; cbn; lia).
    exists (survey_errors req). split; [|split; [|done]].
    + repeat split. rewrite survey_errors_nil. cbn. lia.
    + intros m. apply survey_errors_elem.
  - intros Hempty.
    destruct (createSurvey_unbound db now req) as [fields ->]; [|done].
    rewrite <- !len_zero. done.
Qed.

(** Counterexample to C5 as worded: a title of three bytes with a
    description of length 0 lies within the stated bounds, and the request
    is answered 400 "Invalid request data" without a survey. *)
Lemma createSurvey_rejects_empty_description :
  let t := "abc" in
  let d := "" in
  (3 ≤ len t ≤ 255 ∧ 0 ≤ len d ≤ 1000) ∧
  createSurvey empty_db 0 (Decoded (mkCreateSurveyRequest t d)) =
    (empty_db,
     JSON http.StatusBadRequest
       (mkAPIResponse "error" "Invalid request data" None
          [Error (ValidationErrors ["CreateSurveyRequest.Survey.Description"])])) ∧
  ¬ Succeeded (createSurvey empty_db 0 (Decoded (mkCreateSurveyRequest t d))).2.
Proof.
  cbn zeta. split; [by vm_compute|]. split; [reflexivity|].
  by intros [[=] _].
Qed.

Lemma characters_single_byte (s : string) :
  single_byte_characters s = true → characters s = len s.
Proof.
  unfold len. induction s as [|a s IH]; [done|].
  cbn [single_byte_characters characters String.length].
  intros [Ha Hs]%andb_prop. apply Z.ltb_lt in Ha.
  unfold continuation_byte. rewrite IH by done.
  destruct (Z.leb_spec 128 (Z.of_nat (nat_of_ascii a))); cbn [andb]; lia.
Qed.

(** C5, as the code has it, with lengths in characters. For a title and a
    description made of single-byte characters: a title of 3 to 255
    characters with a description of 1 to 1000 characters creates a
    survey, the reply carrying it with [ResponsesCount = 0] and exactly
    one row being added under a fresh id; a non-empty title and
    description that break a length bound are rejected as
    ValidationFailed with every applicable message and nothing is
    written; an empty title or an empty description fails the
    [binding:"required"] check, so that the request is rejected as a
    structural parse failure and nothing is written. *)
Theorem createSurvey_outcomes_in_characters (db : DB) (now : time.Time)
    (t d : string) :
  single_byte_characters t = true →
  single_byte_characters d = true →
  let res := createSurvey db now (Decoded (mkCreateSurveyRequest t d)) in
  (3 ≤ characters t ≤ 255 → 1 ≤ characters d ≤ 1000 →
     ∃ survey,
       res.2 = JSON http.StatusCreated
                 (mkAPIResponse "success" "Survey created successfully"
                    (Some survey) []) ∧
       ResponsesCount survey = 0 ∧ Title survey = t ∧ Description survey = d ∧
       surveys db !! Survey_ID survey = None ∧
       surveys res.1 =
         <[Survey_ID survey := mk_surveys_row t d (sql.CURRENT_TIMESTAMP now)
                                 (sql.CURRENT_TIMESTAMP now)]> (surveys db) ∧
       survey_responses res.1 = survey_responses db) ∧
  (1 ≤ characters t → 1 ≤ characters d →
   ¬ (3 ≤ characters t ≤ 255 ∧ characters d ≤ 1000) →
     ∃ messages,
       ValidationFailed messages res.2 ∧
       (∀ m, m ∈ messages ↔
          (m = Str "Title must be at least 3 characters long" ∧ characters t < 3) ∨
          (m = Str "Title must be less than 255 characters" ∧ 255 < characters t) ∨
          (m = Str "Description must be less than 1000 characters" ∧
             1000 < characters d)) ∧
       res.1 = db) ∧
  (characters t = 0 ∨ characters d = 0 →
     StructuralParseFailure res.2 ∧ Data (obj res.2) = None ∧ res.1 = db).
Proof.
  intros Ht Hd. cbn zeta.
  rewrite (characters_single_byte t Ht), (characters_single_byte d Hd).
  destruct (createSurvey_outcomes db now t d) as (Hok & Hbad & Hempty).
  split; [exact Hok|]. split; [exact Hbad|].
  intros Hzero. destruct (Hempty Hzero) as [Hparse Hdb].
  split; [exact Hparse|]. split; [|exact Hdb].
  destruct (createSurvey_unbound db now (mkCreateSurveyRequest t d)) as [fields ->];
    [|done].
  cbn. by rewrite <- !len_zero.
Qed.

Lemma createSurvey_outcomes_in_characters_witness :
  (single_byte_characters "Test Survey" = true ∧
   single_byte_characters "Test Description" = true ∧
   3 ≤ characters "Test Survey" ≤ 255 ∧ 1 ≤ characters "Test Description" ≤ 1000) ∧
  ∃ survey,
    (createSurvey empty_db t0
       (Decoded (mkCreateSurveyRequest "Test Survey" "Test Description"))).2 =
      JSON http.StatusCreated
        (mkAPIResponse "success" "Survey created successfully" (Some survey) []) ∧
    ResponsesCount survey = 0.
Proof.
  assert (Ht : single_byte_characters "Test Survey" = true) by reflexivity.
  assert (Hd : single_byte_characters "Test Description" = true) by reflexivity.
  assert (Hlt : 3 ≤ characters "Test Survey" ≤ 255)
    by (vm_compute; split; discriminate).
  assert (Hld : 1 ≤ characters "Test Description" ≤ 1000)
    by (vm_compute; split; discriminate).
  split; [exact (conj Ht (conj Hd (conj Hlt Hld)))|].
  destruct (proj1 (createSurvey_outcomes_in_characters empty_db t0
                     "Test Survey" "Test Description" Ht Hd) Hlt Hld)
    as (survey & Hreply & Hcount & _).
  exists survey. exact (conj Hreply Hcount).
Defined.

(** Outside single-byte characters the byte count decides: a title of two
    characters that take four bytes is accepted, and a title of 128
    characters that take 256 bytes is refused as too long. *)
Lemma createSurvey_compares_bytes :
  let short := (e_acute ++ e_acute)%string in
  let long := String.concat "" (replicate 128 e_acute) in
  (characters short = 2 ∧ len short = 4 ∧
   code (createSurvey empty_db t0 (Decoded (mkCreateSurveyRequest short "d"))).2
     = http.StatusCreated) ∧
  (characters long = 128 ∧ len long = 256 ∧
   (createSurvey empty_db t0 (Decoded (mkCreateSurveyRequest long "d"))).2 =
     JSON http.StatusUnprocessableEntity
       (mkAPIResponse "error" "Failed to create survey" None
          [Str "Title must be less than 255 characters"])).
Proof. cbn zeta. repeat split; vm_compute; reflexivity. Qed.

(** ** Validation *)

Lemma response_errors_elem (req : CreateResponseRequest) (m : errstr) :
  m ∈ response_errors req ↔
    (m = Str "User identifier must be at least 3 characters long" ∧
       len (req_UserIdentifier req) < 3) ∨
    (m = Str "User identifier must be less than 100 characters" ∧
       100 < len (req_UserIdentifier req)).
Proof.
  unfold response_errors.
  destruct (Z.ltb_spec (len (req_UserIdentifier req)) 3);
    destruct (Z.ltb_spec 100 (len (req_UserIdentifier req)));
    cbn; rewrite ?elem_of_cons, ?elem_of_nil; intuition lia.
Qed.

Lemma bind_response_request (req : CreateResponseRequest) :
  req_UserIdentifier req ≠ "" → req_ResponseData req ≠ None →
  ShouldBindJSON_CreateResponseRequest (Decoded req) = inr req.
Proof.
  intros Hu Hd. unfold ShouldBindJSON_CreateResponseRequest, required_string,
    required_RawMessage.
  rewrite decide_False by done. by destruct (req_ResponseData req).
Qed.

Lemma createSurveyResponse_invalid (db : DB) (now : time.Time) (surveyID : string)
    (sID : Z) (req : CreateResponseRequest) :
  strconv.Atoi surveyID = inr sID →
  is_Some (surveys db !! sID) →
  req_UserIdentifier req ≠ "" → req_ResponseData req ≠ None →
  response_errors req ≠ [] →
  createSurveyResponse db now surveyID (Decoded req) =
    (db, JSON http.StatusUnprocessableEntity
           (mkAPIResponse "error" "Failed to submit survey response" None
              (response_errors req))).
Proof.
  intros HsID Hs Hu Hd Herr. unfold createSurveyResponse.
  rewrite HsID, survey_exists_true, bind_response_request, has_errors by done.
  by rewrite bool_decide_eq_false_2.
Qed.

(** C6. Validation checks every constraint on its own and reports all the
    violations at once. For [createSurvey]: a bound request with at least
    one violation is answered ValidationFailed with the whole list, a
    message is in the list exactly when its constraint is violated, and a
    title above 255 bytes with a description above 1000 bytes yields both
    messages. For [createSurveyResponse] likewise, with the two
    constraints on the user identifier. *)
Theorem validation_reports_every_violation :
  (∀ db now req,
     req_Title req ≠ "" → req_Description req ≠ "" → survey_errors req ≠ [] →
     ValidationFailed (survey_errors req) (createSurvey db now (Decoded req)).2 ∧
     (createSurvey db now (Decoded req)).1 = db) ∧
  (∀ req m,
     m ∈ survey_errors req ↔
       (m = Str "Title must be at least 3 characters long" ∧
          len (req_Title req) < 3) ∨
       (m = Str "Title must be less than 255 characters" ∧
          255 < len (req_Title req)) ∨
       (m = Str "Description must be less than 1000 characters" ∧
          1000 < len (req_Description req))) ∧
  (∀ req,
     255 < len (req_Title req) → 1000 < len (req_Description req) →
     survey_errors req =
       [Str "Title must be less than 255 characters";
        Str "Description must be less than 1000 characters"]) ∧
  (∀ db now surveyID sID req,
     strconv.Atoi surveyID = inr sID → is_Some (surveys db !! sID) →
     req_UserIdentifier req ≠ "" → req_ResponseData req ≠ None →
     response_errors req ≠ [] →
     ValidationFailed (response_errors req)
       (createSurveyResponse db now surveyID (Decoded req)).2 ∧
     (createSurveyResponse db now surveyID (Decoded req)).1 = db) ∧
  (∀ req m,
     m ∈ response_errors req ↔
       (m = Str "User identifier must be at least 3 characters long" ∧
          len (req_UserIdentifier req) < 3) ∨
       (m = Str "User identifier must be less than 100 characters" ∧
          100 < len (req_UserIdentifier req))).
Proof.
  split; [|split; [|split; [|split]]].
  - intros db now req Ht Hd Herr. rewrite createSurvey_bound by done.
    by rewrite bool_decide_eq_false_2.
  - apply survey_errors_elem.
  - intros req Ht Hd. unfold survey_errors.
    destruct (Z.ltb_spec (len (req_Title req)) 3); [lia|].
    destruct (Z.ltb_spec 255 (len (req_Title req))); [|lia].
    destruct (Z.ltb_spec 1000 (len (req_Description req))); [done|lia].
  - intros db now surveyID sID req HsID Hs Hu Hd Herr.
    by rewrite (createSurveyResponse_invalid _ _ _ sID).
  - apply response_errors_elem.
Qed.

(** ** Listing surveys *)

Lemma group_by_id_count_lookup (joined : list (Z * surveys_row * option Z)) (sid : Z) :
  group_by_id_count joined !! sid =
    match filter (λ j, j.1.1 = sid) joined with
    | [] => None
    | ((_, s, _) :: _) as js =>
        Some (s, Z.of_nat (List.length (filter (λ j, is_Some j.2) js)))
    end.
Proof.
  induction joined as [|[[k s] o] rest IH]; [done|].
  cbn [group_by_id_count foldr]. fold (group_by_id_count rest).
  destruct (decide (k = sid)) as [->|Hne].
  - rewrite lookup_insert_eq, filter_cons_True by done. rewrite IH.
    cbv beta iota.
    rewrite (filter_cons (λ j, is_Some j.2) (sid, s, o)).
    destruct (filter (λ j, j.1.1 = sid) rest) as [|[[k' s'] o'] js].
    + destruct o; by cbn.
    + destruct o as [srid|]; cbn [snd].
      * rewrite decide_True by eauto. cbn [List.length]. f_equal. f_equal. lia.
      * rewrite decide_False by (by intros [? [=]]). f_equal. f_equal. lia.
  - rewrite lookup_insert_ne, filter_cons_False by done. apply IH.
Qed.

Lemma left_join_rows_shape (db : DB) (k : Z) (s : surveys_row) :
  ∃ o rest,
    left_join_rows db k s = (k, s, o) :: rest ∧
    (∀ j, j ∈ left_join_rows db k s → j.1 = (k, s)) ∧
    List.length (filter (λ j, is_Some j.2) (left_join_rows db k s)) =
      List.length (responses_referencing db k).
Proof.
  unfold left_join_rows.
  destruct (responses_referencing db k) as [|kr matches]; cbv beta iota.
  - exists None, []. split; [done|]. split; [|done].
    intros j Hj. apply list_elem_of_singleton in Hj. by subst.
  - exists (Some kr.1), ((λ kr, (k, s, Some kr.1)) <$> matches).
    split; [done|]. split.
    + intros j Hj. apply list_elem_of_fmap in Hj as (kr' & -> & _). done.
    + generalize (kr :: matches). clear. intros l.
      induction l as [|x l IH]; [done|].
      cbn [fmap list_fmap]. rewrite filter_cons_True by (cbn; eauto).
      cbn [List.length]. by f_equal.
Qed.

Lemma filter_rows_of_one_survey (l : list (Z * surveys_row * option Z))
    (k sid : Z) (s : surveys_row) :
  (∀ j, j ∈ l → j.1 = (k, s)) →
  filter (λ j, j.1.1 = sid) l = if decide (k = sid) then l else [].
Proof.
  intros Hkey. induction l as [|j l IH]; [by case_decide|].
  assert (Hj : j.1 = (k, s)) by (apply Hkey; left).
  assert (IH' : filter (λ j, j.1.1 = sid) l = if decide (k = sid) then l else []).
  { apply IH. intros j' Hj'. apply Hkey. by right. }
  destruct (decide (k = sid)) as [->|Hne].
  - rewrite filter_cons_True by (by rewrite Hj). by rewrite IH'.
  - rewrite filter_cons_False by (by rewrite Hj). done.
Qed.

Lemma filter_left_join_rows (db : DB) (k sid : Z) (s : surveys_row) :
  filter (λ j, j.1.1 = sid) (left_join_rows db k s) =
    if decide (k = sid) then left_join_rows db k s else [].
Proof.
  destruct (left_join_rows_shape db k s) as (_ & _ & _ & Hkey & _).
  by apply filter_rows_of_one_survey with s.
Qed.

Lemma filter_left_join_other (db : DB) (sid : Z) (L : list (Z * surveys_row)) :
  sid ∉ L.*1 →
  filter (λ j, j.1.1 = sid) ('(k, s) ← L; left_join_rows db k s) = [].
Proof.
  induction L as [|[k s] L IH]; [done|].
  intros Hnotin. apply not_elem_of_cons in Hnotin as [Hne Hnotin].
  cbn [mbind list_bind]. rewrite filter_app, IH, app_nil_r by done.
  rewrite filter_left_join_rows. by rewrite decide_False.
Qed.

Lemma filter_left_join_same (db : DB) (sid : Z) (s : surveys_row)
    (L : list (Z * surveys_row)) :
  NoDup L.*1 → (sid, s) ∈ L →
  filter (λ j, j.1.1 = sid) ('(k, s) ← L; left_join_rows db k s) =
    left_join_rows db sid s.
Proof.
  induction L as [|[k s'] L IH]; [by intros _ ?%elem_of_nil|].
  intros [Hk Hnd]%NoDup_cons Hin. cbn [mbind list_bind].
  rewrite filter_app, filter_left_join_rows.
  destruct (decide (k = sid)) as [->|Hne].
  - assert (s' = s) as ->.
    { apply elem_of_cons in Hin as [[=]|Hin]; [done|].
      exfalso. apply Hk. apply list_elem_of_fmap. by exists (sid, s). }
    by rewrite filter_left_join_other, app_nil_r.
  - apply elem_of_cons in Hin as [[=]|Hin]; [done|].
    by rewrite IH.
Qed.

(** The groups of the grouped left join: one per survey row, counting the
    response rows that reference it. *)
Lemma grouped_join_lookup (db : DB) (sid : Z) :
  group_by_id_count (surveys_left_join_responses db) !! sid =
    (λ s, (s, Z.of_nat (List.length (responses_referencing db sid)))) <$>
      surveys db !! sid.
Proof.
  rewrite group_by_id_count_lookup. unfold surveys_left_join_responses.
  destruct (surveys db !! sid) as [s|] eqn:Hs; cbn [fmap option_fmap option_map].
  - rewrite (filter_left_join_same db sid s).
    + destruct (left_join_rows_shape db sid s) as (o & rest & Heq & _ & Hcount).
      rewrite <- Hcount, Heq. done.
    + apply NoDup_fst_map_to_list.
    + by apply elem_of_map_to_list.
  - rewrite filter_left_join_other; [done|].
    intros ([k s] & -> & Hin%elem_of_map_to_list)%list_elem_of_fmap.
    cbn in Hs. congruence.
Qed.

#[local] Instance desc_total {A} (key : A → Z) : Total (sql.desc key).
Proof. intros x y. unfold sql.desc. lia. Qed.

Lemma order_by_desc_sorted {A} (key : A → Z) (rows : list A) :
  Sorted (sql.desc key) (sql.order_by_desc key rows).
Proof. apply (Sorted_merge_sort _). Qed.

Lemma order_by_desc_perm {A} (key : A → Z) (rows : list A) :
  sql.order_by_desc key rows ≡ₚ rows.
Proof. apply merge_sort_Permutation. Qed.

(** C8. [getSurveys] returns every survey of the store, each once, by
    [created_at] descending, and each with a [ResponsesCount] equal to the
    number of response rows that reference it; a survey that no response
    references is listed with count 0. *)
Theorem getSurveys_lists_every_survey_with_count (db : DB) :
  ∃ listed,
    getSurveys db = JSON http.StatusOK (mkAPIResponse "success" "" (Some listed) []) ∧
    Sorted (λ a b, Survey_CreatedAt b ≤ Survey_CreatedAt a) listed ∧
    NoDup (Survey_ID <$> listed) ∧
    (∀ sv, sv ∈ listed ↔
       ∃ s, surveys db !! Survey_ID sv = Some s ∧
            sv = mkSurvey (Survey_ID sv) (title s) (description s)
                   (s_created_at s) (s_updated_at s)
                   (Z.of_nat (List.length (responses_referencing db (Survey_ID sv))))) ∧
    (∀ id s, surveys db !! id = Some s →
       (∀ rid r, survey_responses db !! rid = Some r → survey_id r ≠ id) →
       mkSurvey id (title s) (description s) (s_created_at s) (s_updated_at s) 0
         ∈ listed).
Proof.
  exists (select_surveys db). split; [done|].
  assert (Hmem : ∀ sv, sv ∈ select_surveys db ↔
            ∃ s, surveys db !! Survey_ID sv = Some s ∧
                 sv = mkSurvey (Survey_ID sv) (title s) (description s)
                        (s_created_at s) (s_updated_at s)
                        (Z.of_nat (List.length
                           (responses_referencing db (Survey_ID sv))))).
  { intros sv. unfold select_surveys. rewrite order_by_desc_perm.
    rewrite list_elem_of_fmap. split.
    - intros ([id [s n]] & -> & Hin). apply elem_of_map_to_list in Hin.
      rewrite grouped_join_lookup in Hin. cbn [scan_survey Survey_ID].
      destruct (surveys db !! id) as [s'|]; [|done].
      cbn in Hin. injection Hin as <- <-. by exists s'.
    - intros (s & Hs & Heq).
      exists (Survey_ID sv,
              (s, Z.of_nat (List.length (responses_referencing db (Survey_ID sv))))).
      split; [done|]. apply elem_of_map_to_list.
      by rewrite grouped_join_lookup, Hs. }
  split; [apply order_by_desc_sorted|]. split; [|split; [done|]].
  - unfold select_surveys. rewrite order_by_desc_perm.
    assert (Hids : ∀ l : list (Z * (surveys_row * Z)),
              Survey_ID <$> (scan_survey <$> l) = l.*1).
    { induction l as [|[id [s n]] l IH]; [done|]. cbn. by f_equal. }
    rewrite Hids. apply NoDup_fst_map_to_list.
  - intros id s Hs Hnone. apply Hmem. exists s. cbn [Survey_ID]. split; [done|].
    do 2 f_equal. unfold responses_referencing.
    destruct (filter _ _) as [|[rid r] l] eqn:Hf; [done|].
    assert (Hin : (rid, r) ∈ filter (λ kr, survey_id kr.2 = id)
                    (map_to_list (survey_responses db))) by (rewrite Hf; left).
    apply list_elem_of_filter in Hin as [Href Hin%elem_of_map_to_list].
    by destruct (Hnone rid r).
Qed.

(** ** Responses of a user *)

Lemma joined_user_response_ids (db : DB) (uid : string)
    (L : list (Z * survey_responses_row)) :
  UR_ID <$> (L ≫= joined_user_response db uid) `sublist_of` L.*1.
Proof.
  induction L as [|[rid r] L IH]; [done|].
  cbn [mbind list_bind fmap list_fmap]. rewrite fmap_app.
  unfold joined_user_response at 1.
  destruct (surveys db !! survey_id r); [case_decide|]; cbn.
  - by apply sublist_skip.
  - by apply sublist_cons.
  - by apply sublist_cons.
Qed.

Lemma select_user_responses_elem (db : DB) (uid : string) (ur : UserResponse) :
  ur ∈ select_user_responses db uid ↔
    ∃ r s, survey_responses db !! UR_ID ur = Some r ∧ user_identifier r = uid ∧
           surveys db !! survey_id r = Some s ∧
           ur = mkUserResponse (UR_ID ur)
                  (mkSurvey (survey_id r) (title s) (description s)
                     time.zero time.zero 0)
                  (user_identifier r) (Some (response_data r))
                  (created_at r) (updated_at r) false.
Proof.
  unfold select_user_responses. rewrite order_by_desc_perm, list_elem_of_bind.
  split.
  - intros ([rid r] & Hin & Hrow%elem_of_map_to_list).
    unfold joined_user_response in Hin.
    destruct (surveys db !! survey_id r) as [s|] eqn:Hs;
      [case_decide|]; try by apply elem_of_nil in Hin.
    apply list_elem_of_singleton in Hin as ->. by exists r, s.
  - intros (r & s & Hrow & Huid & Hs & Heq).
    exists (UR_ID ur, r). split; [|by apply elem_of_map_to_list].
    unfold joined_user_response. rewrite Hs, decide_True by done.
    rewrite Heq at 1. by left.
Qed.

(** C10. [getUserResponses] applies no validation to the user identifier:
    for every string, of any length, the reply is a success whose list
    holds, each once, the responses whose stored [user_identifier] equals
    the string, and no other; it is the empty list when there is none, never
    a ValidationFailed or NotFound. (Rows come from an inner join with
    [surveys]: a response is listed because its survey exists, which is the
    case for every response in a store with referential integrity.) *)
Theorem getUserResponses_matches_exactly (db : DB) (now : time.Time) (uid : string) :
  referential_integrity db →
  ∃ listed,
    getUserResponses db now uid =
      JSON http.StatusOK (mkAPIResponse "success" "" (Some listed) []) ∧
    NoDup (UR_ID <$> listed) ∧
    (∀ ur, ur ∈ listed →
       ∃ r, survey_responses db !! UR_ID ur = Some r ∧ user_identifier r = uid ∧
            UR_UserIdentifier ur = uid ∧
            UR_ResponseData ur = Some (response_data r) ∧
            UR_CreatedAt ur = created_at r ∧ UR_UpdatedAt ur = updated_at r ∧
            UR_Editable ur = within_24_hours now (created_at r) ∧
            Survey_ID (UR_Survey ur) = survey_id r) ∧
    (∀ rid r, survey_responses db !! rid = Some r → user_identifier r = uid →
       ∃ ur, ur ∈ listed ∧ UR_ID ur = rid ∧
             UR_ResponseData ur = Some (response_data r)) ∧
    ((∀ rid r, survey_responses db !! rid = Some r → user_identifier r ≠ uid) →
       listed = []).
Proof.
  intros Hri. eexists. split; [reflexivity|].
  set (annotate := λ response : UserResponse,
         set_UR_Editable response (within_24_hours now (UR_CreatedAt response))).
  split; [|split; [|split]].
  - rewrite <- list_fmap_compose.
    assert (Hids : ∀ l : list UserResponse, UR_ID ∘ annotate <$> l = UR_ID <$> l).
    { induction l as [|x l IH]; [done|]. cbn. by f_equal. }
    rewrite Hids. unfold select_user_responses. rewrite order_by_desc_perm.
    eapply sublist_NoDup; [|apply joined_user_response_ids].
    apply NoDup_fst_map_to_list.
  - intros ur (ur0 & -> & Hin)%list_elem_of_fmap.
    apply select_user_responses_elem in Hin as (r & s & Hrow & Huid & Hs & Heq).
    exists r. rewrite Heq. cbn. by rewrite Huid.
  - intros rid r Hrow Huid.
    destruct (Hri rid r Hrow) as [s Hs].
    set (ur0 := mkUserResponse rid
                  (mkSurvey (survey_id r) (title s) (description s)
                     time.zero time.zero 0)
                  (user_identifier r) (Some (response_data r))
                  (created_at r) (updated_at r) false).
    exists (annotate ur0). split; [|done].
    apply list_elem_of_fmap. exists ur0. split; [done|].
    apply select_user_responses_elem. by exists r, s.
  - intros Hnone.
    destruct (select_user_responses db uid) as [|ur l] eqn:Hsel; [done|].
    assert (Hin : ur ∈ select_user_responses db uid) by (rewrite Hsel; left).
    apply select_user_responses_elem in Hin as (r & s & Hrow & Huid & _).
    by destruct (Hnone _ _ Hrow).
Qed.

(** ** Referential integrity is an invariant *)

Lemma createSurvey_db (db : DB) (now : time.Time) (body : Body CreateSurveyRequest) :
  (createSurvey db now body).1 = db ∨
  ∃ t d, (createSurvey db now body).1 = (insert_survey db now t d).1.
Proof.
  unfold createSurvey.
  destruct (ShouldBindJSON_CreateSurveyRequest body) as [err|req]; [by left|].
  destruct (0 <? _); [by left|]. right.
  exists (req_Title req), (req_Description req).
  destruct (insert_survey db now (req_Title req) (req_Description req)) as [db' id].
  by destruct (select_created_survey db' id).
Qed.

Lemma createSurveyResponse_db (db : DB) (now : time.Time) (surveyID : string)
    (body : Body CreateResponseRequest) :
  (createSurveyResponse db now surveyID body).1 = db ∨
  ∃ sID uid data db' id,
    is_Some (surveys db !! sID) ∧
    insert_response db now sID uid data = inr (db', id) ∧
    (createSurveyResponse db now surveyID body).1 = db'.
Proof.
  unfold createSurveyResponse.
  destruct (strconv.Atoi surveyID) as [err|sID]; [by left|].
  destruct (survey_exists db sID) eqn:Hex; cbn [negb]; [|by left].
  apply bool_decide_eq_true in Hex.
  destruct (ShouldBindJSON_CreateResponseRequest body) as [err|req]; [by left|].
  destruct (0 <? _); [by left|].
  destruct (insert_response db now sID (req_UserIdentifier req) (req_ResponseData req))
    as [err|[db' id]] eqn:Hins; [by left|].
  right. exists sID, (req_UserIdentifier req), (req_ResponseData req), db', id.
  split; [done|]. split; [done|].
  by destruct (select_response_by_id db' id).
Qed.

Lemma updateSurveyResponse_db (db : DB) (now : time.Time)
    (surveyID responseID : string) (body : Body UpdateResponseRequest) :
  (updateSurveyResponse db now surveyID responseID body).1 = db ∨
  ∃ rID r d,
    survey_responses db !! rID = Some r ∧
    (updateSurveyResponse db now surveyID responseID body).1 =
      mkDB (surveys db) (surveys_seq db)
        (<[rID := updated_row now r d]> (survey_responses db))
        (survey_responses_seq db).
Proof.
  destruct (strconv.Atoi surveyID) as [err|sID] eqn:HsID;
    [left; unfold updateSurveyResponse; by rewrite HsID|].
  destruct (strconv.Atoi responseID) as [err|rID] eqn:HrID;
    [left; unfold updateSurveyResponse; by rewrite HsID, HrID|].
  destruct (stored_or_absent db rID sID) as [(r & Hrow & Hsc)|Habs].
  - rewrite (updateSurveyResponse_stored _ _ _ _ _ _ _ HsID HrID Hrow Hsc).
    destruct (within_24_hours now (created_at r)); [|by left].
    destruct body as [|[[d|]]]; [by left| |by left].
    right. by exists rID, r, d.
  - left. by rewrite (updateSurveyResponse_absent _ _ _ _ _ _ _ HsID HrID Habs).
Qed.

Lemma serve_preserves_integrity (db : DB) (now : time.Time) (rq : request) :
  referential_integrity db → referential_integrity (serve db now rq).
Proof.
  intros Hri. destruct rq as [body|surveyID body|surveyID responseID body]; cbn.
  - destruct (createSurvey_db db now body) as [->|(t & d & ->)]; [done|].
    intros rid r Hrow. cbn in *. destruct (Hri rid r Hrow) as [s Hs].
    destruct (decide (sql.new_rowid (surveys db) (surveys_seq db) = survey_id r))
      as [Heq|Hne].
    + rewrite Heq, lookup_insert_eq. eauto.
    + rewrite lookup_insert_ne by done. eauto.
  - destruct (createSurveyResponse_db db now surveyID body)
      as [->|(sID & uid & data & db' & id & Hs & Hins & ->)]; [done|].
    unfold insert_response in Hins.
    destruct (sql.bind_RawMessage data) as [d|]; [|done].
    injection Hins as <- <-.
    apply map_Forall_insert_2; [done|]. apply Hri.
  - destruct (updateSurveyResponse_db db now surveyID responseID body)
      as [->|(rID & r & d & Hrow & ->)]; [done|].
    apply map_Forall_insert_2; [|apply Hri]. cbn. by apply (Hri rID).
Qed.

Lemma reachable_integrity (db : DB) : reachable db → referential_integrity db.
Proof.
  induction 1 as [|db now rq _ IH].
  - apply map_Forall_empty.
  - by apply serve_preserves_integrity.
Qed.

Lemma db2_reachable : reachable db2.
Proof.
  apply (reachable_serve _ _ (POST_responses _ _)).
  apply (reachable_serve _ _ (POST_surveys _)).
  apply reachable_empty.
Qed.

(** ** The statements at work on the small run *)

Lemma Atoi_1 : strconv.Atoi "1" = inr 1.
Proof. reflexivity. Defined.

Lemma Atoi_2 : strconv.Atoi "2" = inr 2.
Proof. reflexivity. Defined.

Lemma db2_row1 : survey_responses db2 !! 1 = Some row1.
Proof. vm_compute. reflexivity. Defined.

Lemma db2_integrity : referential_integrity db2.
Proof. apply (bool_decide_unpack _). vm_compute. exact I. Defined.


(** An hour after creation, a payload without [response_data] leaves the
    database as it was. *)
Lemma update_without_response_data_writes_nothing_witness :
  within_24_hours (created_at row1 + time.Hour) (created_at row1) = true ∧
  (updateSurveyResponse db2 (created_at row1 + time.Hour) "1" "1"
     (Decoded (mkUpdateResponseRequest None))).1 = db2.
Proof.
  assert (Hw : within_24_hours (created_at row1 + time.Hour) (created_at row1) = true)
    by reflexivity.
  split; [exact Hw|].
  exact (proj1
           (update_without_response_data_writes_nothing db2
              (created_at row1 + time.Hour) "1" "1" 1 1 row1
              Atoi_1 Atoi_1 db2_row1 eq_refl
              (Decoded (mkUpdateResponseRequest None)) Hw)).
Defined.

(** Two days after creation an update is rejected and nothing is written. *)
Lemma update_after_24h_is_rejected_without_write_witness :
  24 * time.Hour ≤ created_at row1 + 48 * time.Hour - created_at row1 ∧
  EditWindowExpired
    (updateSurveyResponse db2 (created_at row1 + 48 * time.Hour) "1" "1"
       (Decoded (mkUpdateResponseRequest (Some "[]")))).2 ∧
  (updateSurveyResponse db2 (created_at row1 + 48 * time.Hour) "1" "1"
     (Decoded (mkUpdateResponseRequest (Some "[]")))).1 = db2.
Proof.
  assert (Hold : 24 * time.Hour ≤ created_at row1 + 48 * time.Hour - created_at row1)
    by (vm_compute; discriminate).
  split; [exact Hold|].
  pose proof (update_after_24h_is_rejected_without_write db2
                (created_at row1 + 48 * time.Hour) "1" "1" 1 1 row1
                Atoi_1 Atoi_1 db2_row1 eq_refl
                (Decoded (mkUpdateResponseRequest (Some "[]"))) Hold) as H.
  exact (conj (proj1 H) (proj1 (proj2 H))).
Defined.

(** A malformed body sent two days after creation: EditWindowExpired. *)
Lemma update_checks_policy_before_parsing_witness :
  24 * time.Hour ≤ created_at row1 + 48 * time.Hour - created_at row1 ∧
  EditWindowExpired
    (updateSurveyResponse db2 (created_at row1 + 48 * time.Hour) "1" "1"
       Malformed).2.
Proof.
  assert (Hold : 24 * time.Hour ≤ created_at row1 + 48 * time.Hour - created_at row1)
    by (vm_compute; discriminate).
  split; [exact Hold|].
  exact (proj1 (proj1 (update_checks_policy_before_parsing db2
                         (created_at row1 + 48 * time.Hour) "1" "1" 1 1 Malformed
                         Atoi_1 Atoi_1)
                  row1 db2_row1 eq_refl Hold)).
Defined.

(** Response 1 belongs to survey 1; asked for under survey 2 it is not
    found. *)
Lemma getSurveyResponse_is_survey_scoped_witness :
  survey_responses db2 !! 1 = Some row1 ∧ survey_id row1 ≠ 2 ∧
  NotFound (getSurveyResponse db2 t0 "2" "1").
Proof.
  assert (Hne : survey_id row1 ≠ 2) by discriminate.
  split; [exact db2_row1|]. split; [exact Hne|].
  exact (proj1 (proj2 (getSurveyResponse_is_survey_scoped db2 t0 "2" "1" 2 1
                         Atoi_2 Atoi_1)
                  row1 db2_row1 Hne)).
Defined.

(** There is no survey 2: a response to it is refused before its (invalid)
    payload is looked at. *)
Lemma createSurveyResponse_unknown_survey_witness :
  surveys db2 !! 2 = None ∧
  NotFound (createSurveyResponse db2 t0 "2"
              (Decoded (mkCreateResponseRequest "ab" (Some "{}")))).2 ∧
  (createSurveyResponse db2 t0 "2"
     (Decoded (mkCreateResponseRequest "ab" (Some "{}")))).1 = db2.
Proof.
  assert (Hnone : surveys db2 !! 2 = None) by (vm_compute; reflexivity).
  split; [exact Hnone|].
  pose proof (createSurveyResponse_unknown_survey db2 t0 "2" 2
                (Decoded (mkCreateResponseRequest "ab" (Some "{}")))
                Atoi_2 Hnone) as H.
  exact (conj (proj1 H) (proj2 (proj2 H))).
Defined.

(** The first survey of the run, and a title that is too short. *)
Lemma createSurvey_outcomes_witness :
  (∃ survey,
     (createSurvey empty_db t0
        (Decoded (mkCreateSurveyRequest "Test Survey" "Test Description"))).2 =
       JSON http.StatusCreated
         (mkAPIResponse "success" "Survey created successfully" (Some survey) []) ∧
     ResponsesCount survey = 0) ∧
  (createSurvey empty_db t0 (Decoded (mkCreateSurveyRequest "A" "New Description"))).1
    = empty_db.
Proof.
  split.
  - destruct (proj1 (createSurvey_outcomes empty_db t0 "Test Survey" "Test Description"))
      as (survey & Hreply & Hcount & _).
    + vm_compute. split; discriminate.
    + vm_compute. split; discriminate.
    + exists survey. exact (conj Hreply Hcount).
  - destruct (proj1 (proj2 (createSurvey_outcomes empty_db t0 "A" "New Description")))
      as (messages & _ & _ & Hdb).
    + vm_compute. discriminate.
    + vm_compute. discriminate.
    + vm_compute. intros [[H _] _]. apply H. reflexivity.
    + exact Hdb.
Defined.

(** A title of 256 bytes with a description of 1001 bytes: both messages. *)
Lemma validation_reports_every_violation_witness :
  let req :=
    mkCreateSurveyRequest (String.concat "" (replicate 256 "t"))
      (String.concat "" (replicate 1001 "d")) in
  survey_errors req =
    [Str "Title must be less than 255 characters";
     Str "Description must be less than 1000 characters"].
Proof.
  cbn zeta.
  apply (proj1 (proj2 (proj2 validation_reports_every_violation))).
  - vm_compute. reflexivity.
  - vm_compute. reflexivity.
Defined.

(** The run holds one survey, listed with its one response counted. *)
Lemma getSurveys_lists_every_survey_with_count_witness :
  ∃ listed,
    getSurveys db2 = JSON http.StatusOK (mkAPIResponse "success" "" (Some listed) []) ∧
    ∃ sv, sv ∈ listed ∧ Survey_ID sv = 1 ∧ ResponsesCount sv = 1.
Proof.
  destruct (getSurveys_lists_every_survey_with_count db2)
    as (listed & Hreply & _ & _ & Hmem & _).
  exists listed. split; [exact Hreply|].
  exists (mkSurvey 1 "Test Survey" "Test Description"
            (1700000000 * time.Second) (1700000000 * time.Second) 1).
  split; [|split; reflexivity].
  apply Hmem.
  exists (mk_surveys_row "Test Survey" "Test Description"
            (1700000000 * time.Second) (1700000000 * time.Second)).
  split; vm_compute; reflexivity.
Defined.

(** A two-byte user identifier is looked up like any other. *)
Lemma getUserResponses_matches_exactly_witness :
  referential_integrity db2 ∧
  getUserResponses db2 t0 "ab" = JSON http.StatusOK (mkAPIResponse "success" "" (Some []) []).
Proof.
  split; [exact db2_integrity|].
  destruct (getUserResponses_matches_exactly db2 t0 "ab" db2_integrity)
    as (listed & Hreply & _ & _ & _ & Hnone).
  rewrite Hreply. rewrite Hnone; [reflexivity|].
  assert (Hresp : survey_responses db2 = {[1 := row1]}) by (vm_compute; reflexivity).
  intros rid r Hrow. rewrite Hresp in Hrow.
  apply lookup_singleton_Some in Hrow as [_ <-]. discriminate.
Defined.

(** ** End-to-end checks of the design document *)

Example one_survey_listed_with_count_0 :
  Data (obj (getSurveys db1)) =
    Some [mkSurvey 1 "Test Survey" "Test Description"
            (1700000000 * time.Second) (1700000000 * time.Second) 0].
Proof. vm_compute. reflexivity. Qed.

Example created_response_is_editable :
  (λ r, (ID r, Editable r)) <$>
    Data (obj (createSurveyResponse db1 (t0 + 5 * time.Second) "1"
                 (Decoded (mkCreateResponseRequest "testuser" (Some "{}")))).2)
  = Some (1, true).
Proof. vm_compute. reflexivity. Qed.

Example update_right_after_creation :
  (λ r, (ResponseData r, Editable r, UpdatedAt r)) <$>
    Data (obj (updateSurveyResponse db2 (t0 + 9 * time.Second) "1" "1"
                 (Decoded (mkUpdateResponseRequest (Some "[4]")))).2)
  = Some (Some "[4]", true, 1700000009 * time.Second).
Proof. vm_compute. reflexivity. Qed.

Example short_user_identifier_rejected :
  createSurveyResponse db1 t0 "1"
    (Decoded (mkCreateResponseRequest "ab" (Some "{}")))
  = (db1, JSON http.StatusUnprocessableEntity
            (mkAPIResponse "error" "Failed to submit survey response" None
               [Str "User identifier must be at least 3 characters long"])).
Proof. vm_compute. reflexivity. Qed.

Example responses_of_testuser :
  (λ l : list UserResponse,
     (λ ur, (UR_ID ur, Survey_ID (UR_Survey ur), Title (UR_Survey ur),
             Description (UR_Survey ur))) <$> l) <$>
    Data (obj (getUserResponses db2 t0 "testuser"))
  = Some [(1, 1, "Test Survey", "Test Description")].
Proof. vm_compute. reflexivity. Qed.

(** * Further properties of the handlers *)

(** ** Reading one survey *)

Lemma filter_twice {A} (P : A → Prop) `{!∀ x, Decision (P x)} (l : list A) :
  filter P (filter P l) = filter P l.
Proof.
  induction l as [|x l IH]; [done|].
  rewrite (filter_cons P x l). case_decide; [|done].
  by rewrite filter_cons_True, IH.
Qed.

Lemma select_survey_spec (db : DB) (id : Z) :
  select_survey db id =
    match surveys db !! id with
    | None => inl ErrNoRows
    | Some s =>
        inr (mkSurvey id (title s) (description s) (s_created_at s) (s_updated_at s)
               (Z.of_nat (List.length (responses_referencing db id))))
    end.
Proof.
  unfold select_survey.
  rewrite group_by_id_count_lookup, filter_twice, <- group_by_id_count_lookup.
  rewrite grouped_join_lookup. by destruct (surveys db !! id).
Qed.

Lemma select_surveys_elem (db : DB) (sv : Survey) :
  sv ∈ select_surveys db ↔
    ∃ s, surveys db !! Survey_ID sv = Some s ∧
         sv = mkSurvey (Survey_ID sv) (title s) (description s)
                (s_created_at s) (s_updated_at s)
                (Z.of_nat (List.length (responses_referencing db (Survey_ID sv)))).
Proof.
  unfold select_surveys. rewrite order_by_desc_perm, list_elem_of_fmap. split.
  - intros ([id [s n]] & -> & Hin). apply elem_of_map_to_list in Hin.
    rewrite grouped_join_lookup in Hin. cbn [scan_survey Survey_ID].
    destruct (surveys db !! id) as [s'|]; [|done].
    cbn in Hin. injection Hin as <- <-. by exists s'.
  - intros (s & Hs & Heq).
    exists (Survey_ID sv,
            (s, Z.of_nat (List.length (responses_referencing db (Survey_ID sv))))).
    split; [done|]. apply elem_of_map_to_list.
    by rewrite grouped_join_lookup, Hs.
Qed.

Lemma select_surveys_ids_NoDup (db : DB) : NoDup (Survey_ID <$> select_surveys db).
Proof.
  unfold select_surveys. rewrite order_by_desc_perm.
  assert (Hids : ∀ l : list (Z * (surveys_row * Z)),
            Survey_ID <$> (scan_survey <$> l) = l.*1).
  { induction l as [|[id [s n]] l IH]; [done|]. cbn. by f_equal. }
  rewrite Hids. apply NoDup_fst_map_to_list.
Qed.

Lemma getSurvey_spec_aux (db : DB) (id : string) (n : Z) :
  strconv.Atoi id = inr n →
  Data (obj (getSurvey db id)) =
    (λ s, mkSurvey n (title s) (description s) (s_created_at s) (s_updated_at s)
            (Z.of_nat (List.length (responses_referencing db n)))) <$>
      surveys db !! n.
Proof.
  intros Hid. unfold getSurvey. rewrite Hid, select_survey_spec.
  by destruct (surveys db !! n).
Qed.

(** X1. [getSurvey], for a numeric id: 404 "Survey not found" when no survey
    row has the id; otherwise 200 with the columns of the row and, as
    [ResponsesCount], the number of response rows that reference it at the
    time of the read. *)
Theorem getSurvey_found_or_not (db : DB) (id : string) (n : Z) :
  strconv.Atoi id = inr n →
  getSurvey db id =
    match surveys db !! n with
    | None =>
        JSON http.StatusNotFound (mkAPIResponse "error" "Survey not found" None [])
    | Some s =>
        JSON http.StatusOK
          (mkAPIResponse "success" ""
             (Some (mkSurvey n (title s) (description s)
                      (s_created_at s) (s_updated_at s)
                      (Z.of_nat (List.length (responses_referencing db n))))) [])
    end.
Proof.
  intros Hid. unfold getSurvey. rewrite Hid, select_survey_spec.
  by destruct (surveys db !! n).
Qed.

Lemma getSurvey_found_or_not_witness :
  getSurvey db2 "1" =
    JSON http.StatusOK
      (mkAPIResponse "success" ""
         (Some (mkSurvey 1 "Test Survey" "Test Description"
                  (1700000000 * time.Second) (1700000000 * time.Second) 1)) []) ∧
  getSurvey db2 "2" =
    JSON http.StatusNotFound (mkAPIResponse "error" "Survey not found" None []).
Proof.
  split.
  - rewrite (getSurvey_found_or_not db2 "1" 1 Atoi_1). vm_compute. reflexivity.
  - rewrite (getSurvey_found_or_not db2 "2" 2 Atoi_2). vm_compute. reflexivity.
Defined.

(** X2. [getSurvey] and [getSurveys] agree: what [getSurvey] returns for an
    id is the entry with that id in the list of [getSurveys], count
    included, and it returns nothing exactly when the list has no such
    entry. *)
Theorem getSurvey_agrees_with_getSurveys (db : DB) (id : string) (n : Z)
    (listed : list Survey) (sv : Survey) :
  strconv.Atoi id = inr n →
  Data (obj (getSurveys db)) = Some listed →
  (Data (obj (getSurvey db id)) = Some sv ↔ sv ∈ listed ∧ Survey_ID sv = n).
Proof.
  intros Hid [= <-]. rewrite (getSurvey_spec_aux db id n Hid).
  rewrite select_surveys_elem. split.
  - destruct (surveys db !! n) as [s|] eqn:Hs; [|done].
    intros [= <-]. split; [|done]. exists s. by split.
  - intros [(s & Hs & Heq) <-]. rewrite Hs. cbn. by rewrite Heq at 3.
Qed.

Lemma getSurvey_agrees_with_getSurveys_witness :
  let sv := mkSurvey 1 "Test Survey" "Test Description"
              (1700000000 * time.Second) (1700000000 * time.Second) 1 in
  Data (obj (getSurveys db2)) = Some [sv] ∧
  Data (obj (getSurvey db2 "1")) = Some sv.
Proof.
  cbn zeta.
  assert (Hlist : Data (obj (getSurveys db2)) =
                    Some [mkSurvey 1 "Test Survey" "Test Description"
                            (1700000000 * time.Second) (1700000000 * time.Second) 1])
    by (vm_compute; reflexivity).
  split; [exact Hlist|].
  apply (getSurvey_agrees_with_getSurveys db2 "1" 1 _ _ Atoi_1 Hlist).
  split; [left|reflexivity].
Defined.

(** ** Path parameters that are not numbers *)

(** X3. A survey id that [strconv.Atoi] refuses is answered 400 "Invalid
    survey ID" by every handler that takes one, before the database is
    looked at, and the two handlers that write leave it as it was; the
    same holds for the response id ("Invalid response ID"), which is only
    looked at once the survey id has been accepted. *)
Theorem non_numeric_ids_are_rejected (db : DB) (now : time.Time)
    (bad other : string) (err : error)
    (cbody : Body CreateResponseRequest) (ubody : Body UpdateResponseRequest) :
  strconv.Atoi bad = inl err →
  let invalid (D : Type) (what : string) : Reply D :=
    JSON http.StatusBadRequest (mkAPIResponse "error" what None [Error err]) in
  getSurvey db bad = invalid _ "Invalid survey ID" ∧
  getSurveyResponses db now bad = invalid _ "Invalid survey ID" ∧
  getSurveyResponse db now bad other = invalid _ "Invalid survey ID" ∧
  createSurveyResponse db now bad cbody = (db, invalid _ "Invalid survey ID") ∧
  updateSurveyResponse db now bad other ubody = (db, invalid _ "Invalid survey ID") ∧
  (∀ sID, strconv.Atoi other = inr sID →
     getSurveyResponse db now other bad = invalid _ "Invalid response ID" ∧
     updateSurveyResponse db now other bad ubody =
       (db, invalid _ "Invalid response ID")).
Proof.
  intros Hbad invalid. subst invalid.
  unfold getSurvey, getSurveyResponses, getSurveyResponse, createSurveyResponse,
    updateSurveyResponse.
  rewrite !Hbad. do 5 (split; [done|]).
  intros sID Hother. by rewrite Hother.
Qed.

Lemma non_numeric_ids_are_rejected_witness :
  strconv.Atoi "1x" = inl (NumError "Atoi" "1x") ∧
  createSurveyResponse db2 t0 "1x" Malformed =
    (db2, JSON http.StatusBadRequest
            (mkAPIResponse "error" "Invalid survey ID" None
               [Error (NumError "Atoi" "1x")])).
Proof.
  assert (Hbad : strconv.Atoi "1x" = inl (NumError "Atoi" "1x")) by reflexivity.
  split; [exact Hbad|].
  exact (proj1 (proj2 (proj2 (proj2
           (non_numeric_ids_are_rejected db2 t0 "1x" "1" _ Malformed Malformed Hbad))))).
Defined.

(** ** Submitting a response *)

Lemma response_errors_nil (req : CreateResponseRequest) :
  response_errors req = [] ↔ 3 ≤ len (req_UserIdentifier req) ≤ 100.
Proof.
  unfold response_errors.
  destruct (Z.ltb_spec (len (req_UserIdentifier req)) 3);
    destruct (Z.ltb_spec 100 (len (req_UserIdentifier req)));
    cbn; split; intros; try done; lia.
Qed.

Lemma CURRENT_TIMESTAMP_bounds (now : time.Time) :
  now - time.Second < sql.CURRENT_TIMESTAMP now ≤ now.
Proof.
  unfold sql.CURRENT_TIMESTAMP.
  assert (Hs : time.Second = 1000000000) by reflexivity.
  pose proof (Z.mod_pos_bound now time.Second) as Hm. rewrite Hs in *. lia.
Qed.

Lemma within_24_hours_at_creation (now : time.Time) :
  within_24_hours now (sql.CURRENT_TIMESTAMP now) = true.
Proof.
  apply within_24_hours_spec. pose proof (CURRENT_TIMESTAMP_bounds now) as Hb.
  assert (Hs : time.Second = 1000000000) by reflexivity.
  assert (Hh : 24 * time.Hour = 86400000000000) by reflexivity.
  rewrite Hs in Hb. rewrite Hh. lia.
Qed.

Lemma new_rowid_exceeds {A} (tbl : gmap Z A) (seq : Z) :
  seq < sql.new_rowid tbl seq ∧ 0 < sql.new_rowid tbl seq ∧
  ∀ k, is_Some (tbl !! k) → k < sql.new_rowid tbl seq.
Proof.
  unfold sql.new_rowid. split; [lia|]. split.
  - assert (0 ≤ sql.max_rowid tbl); [|lia].
    unfold sql.max_rowid. induction (map_to_list tbl).*1 as [|k l IH]; cbn; lia.
  - intros k Hk%max_rowid_bound. lia.
Qed.

(** The row a submitted response is stored as. *)
Lemma createSurveyResponse_bound (db : DB) (now : time.Time) (surveyID : string)
    (sID : Z) (uid d : string) :
  strconv.Atoi surveyID = inr sID →
  is_Some (surveys db !! sID) →
  uid ≠ "" →
  createSurveyResponse db now surveyID
      (Decoded (mkCreateResponseRequest uid (Some d))) =
    if bool_decide (3 ≤ len uid ≤ 100) then
      let id := sql.new_rowid (survey_responses db) (survey_responses_seq db) in
      let ts := sql.CURRENT_TIMESTAMP now in
      (mkDB (surveys db) (surveys_seq db)
            (<[id := mk_survey_responses_row sID uid d ts ts]> (survey_responses db))
            id,
       JSON http.StatusCreated
         (mkAPIResponse "success" "Survey response submitted successfully"
            (Some (mkSurveyResponse id sID uid (Some d) ts ts true)) []))
    else
      (db, JSON http.StatusUnprocessableEntity
             (mkAPIResponse "error" "Failed to submit survey response" None
                (response_errors (mkCreateResponseRequest uid (Some d))))).
Proof.
  intros HsID Hs Hu. unfold createSurveyResponse.
  rewrite HsID, survey_exists_true, bind_response_request, has_errors by done.
  cbn [negb req_UserIdentifier req_ResponseData].
  destruct (decide (3 ≤ len uid ≤ 100)) as [Hlen|Hlen].
  - rewrite bool_decide_eq_true_2 by (by apply response_errors_nil).
    rewrite bool_decide_eq_true_2 by done. cbn [negb].
    unfold insert_response, select_response_by_id. cbn.
    by rewrite lookup_insert_eq.
  - rewrite bool_decide_eq_false_2 by (by rewrite response_errors_nil).
    by rewrite bool_decide_eq_false_2.
Qed.

(** X4. [createSurveyResponse] on an existing survey, with a user identifier
    of 3 to 100 bytes and a [response_data] value: the reply is 201 and
    carries the stored response, with the survey id of the path, the
    payload as sent, [CreatedAt = UpdatedAt], the current timestamp, and
    [Editable = true]; exactly one row is added, under an id that no row
    has; every other response and the surveys are untouched. *)
Theorem createSurveyResponse_stores_the_response (db : DB) (now : time.Time)
    (surveyID : string) (sID : Z) (uid d : string) :
  strconv.Atoi surveyID = inr sID →
  is_Some (surveys db !! sID) →
  3 ≤ len uid ≤ 100 →
  let res := createSurveyResponse db now surveyID
               (Decoded (mkCreateResponseRequest uid (Some d))) in
  ∃ id,
    res.2 = JSON http.StatusCreated
              (mkAPIResponse "success" "Survey response submitted successfully"
                 (Some (mkSurveyResponse id sID uid (Some d)
                          (sql.CURRENT_TIMESTAMP now) (sql.CURRENT_TIMESTAMP now)
                          true)) []) ∧
    survey_responses db !! id = None ∧
    survey_responses res.1 !! id =
      Some (mk_survey_responses_row sID uid d
              (sql.CURRENT_TIMESTAMP now) (sql.CURRENT_TIMESTAMP now)) ∧
    (∀ k, k ≠ id → survey_responses res.1 !! k = survey_responses db !! k) ∧
    surveys res.1 = surveys db.
Proof.
  intros HsID Hs Hlen. cbn zeta.
  assert (Hu : uid ≠ "") by (intros He%len_zero; lia).
  rewrite (createSurveyResponse_bound _ _ _ sID) by done.
  rewrite bool_decide_eq_true_2 by done.
  eexists. split; [reflexivity|]. cbn.
  split; [apply new_rowid_fresh|]. split; [by rewrite lookup_insert_eq|].
  split; [|done]. intros k Hk. by rewrite lookup_insert_ne.
Qed.

Lemma createSurveyResponse_stores_the_response_witness :
  is_Some (surveys db1 !! 1) ∧ 3 ≤ len "testuser" ≤ 100 ∧
  ∃ id, survey_responses db2 !! id = Some row1.
Proof.
  assert (Hs : is_Some (surveys db1 !! 1)) by (vm_compute; eauto).
  assert (Hlen : 3 ≤ len "testuser" ≤ 100) by (vm_compute; split; discriminate).
  split; [exact Hs|]. split; [exact Hlen|].
  destruct (createSurveyResponse_stores_the_response db1 (t0 + 5 * time.Second)
              "1" 1 "testuser" "{}" Atoi_1 Hs Hlen) as (id & _ & _ & Hrow & _).
  exists id. exact Hrow.
Defined.

(** X5. [createSurveyResponse] on an existing survey refuses a body that is
    malformed, has an empty or absent [user_identifier], or has no
    [response_data]: 400 "Invalid request data", nothing written. An empty
    user identifier is thus never reported through the "at least 3
    characters" message. *)
Theorem createSurveyResponse_requires_both_fields (db : DB) (now : time.Time)
    (surveyID : string) (sID : Z) (body : Body CreateResponseRequest) :
  strconv.Atoi surveyID = inr sID →
  is_Some (surveys db !! sID) →
  (body = Malformed ∨
   ∃ req, body = Decoded req ∧
          (req_UserIdentifier req = "" ∨ req_ResponseData req = None)) →
  let res := createSurveyResponse db now surveyID body in
  StructuralParseFailure res.2 ∧ Data (obj res.2) = None ∧ res.1 = db.
Proof.
  intros HsID Hs Hbody. cbn zeta. unfold createSurveyResponse.
  rewrite HsID, survey_exists_true by done. cbn [negb].
  destruct Hbody as [->|(req & -> & Hmissing)]; [done|].
  unfold ShouldBindJSON_CreateResponseRequest, required_string, required_RawMessage.
  destruct (decide (req_UserIdentifier req = "")) as [Hu|Hu];
    destruct (req_ResponseData req) as [d|]; cbn; try done.
  by destruct Hmissing.
Qed.

Lemma createSurveyResponse_requires_both_fields_witness :
  is_Some (surveys db1 !! 1) ∧
  createSurveyResponse db1 t0 "1"
    (Decoded (mkCreateResponseRequest "testuser" None)) =
    (db1, JSON http.StatusBadRequest
            (mkAPIResponse "error" "Invalid request data" None
               [Error (ValidationErrors
                         ["CreateResponseRequest.SurveyResponse.ResponseData"])])).
Proof.
  assert (Hs : is_Some (surveys db1 !! 1)) by (vm_compute; eauto).
  split; [exact Hs|].
  pose proof (createSurveyResponse_requires_both_fields db1 t0 "1" 1
                (Decoded (mkCreateResponseRequest "testuser" None)) Atoi_1 Hs
                (or_intror (ex_intro _ (mkCreateResponseRequest "testuser" None)
                              (conj eq_refl (or_intror eq_refl))))) as [_ [_ Hdb]].
  apply injective_projections; [exact Hdb|reflexivity].
Defined.

(** X6. A response that [createSurveyResponse] has stored can be read back:
    [getSurveyResponse], under the same survey and with the id of the
    reply, returns the response of the reply, with [Editable] recomputed
    for the instant of the read; read at the instant of creation it is the
    reply itself, so the [Editable = true] that [createSurveyResponse]
    writes out agrees with the 24-hour rule. *)
Theorem created_response_reads_back (db : DB) (now : time.Time)
    (surveyID responseID : string) (sID : Z) (uid d : string)
    (response : SurveyResponse) (now' : time.Time) :
  strconv.Atoi surveyID = inr sID →
  is_Some (surveys db !! sID) →
  3 ≤ len uid ≤ 100 →
  let res := createSurveyResponse db now surveyID
               (Decoded (mkCreateResponseRequest uid (Some d))) in
  Data (obj res.2) = Some response →
  strconv.Atoi responseID = inr (ID response) →
  getSurveyResponse res.1 now' surveyID responseID =
    JSON http.StatusOK
      (mkAPIResponse "success" ""
         (Some (set_Editable response (within_24_hours now' (CreatedAt response))))
         []) ∧
  set_Editable response (within_24_hours now (CreatedAt response)) = response.
Proof.
  intros HsID Hs Hlen. cbn zeta.
  assert (Hu : uid ≠ "") by (intros He%len_zero; lia).
  rewrite (createSurveyResponse_bound _ _ _ sID) by done.
  rewrite bool_decide_eq_true_2 by done. cbn.
  intros [= <-] HrID. cbn in HrID. split.
  - rewrite (getSurveyResponse_stored _ now' _ _ _ _
               (mk_survey_responses_row sID uid d (sql.CURRENT_TIMESTAMP now)
                  (sql.CURRENT_TIMESTAMP now)) HsID HrID);
      [done| |done].
    cbn. by rewrite lookup_insert_eq.
  - unfold set_Editable. cbn. by rewrite within_24_hours_at_creation.
Qed.

Lemma created_response_reads_back_witness :
  getSurveyResponse db2 (t0 + 30 * time.Hour) "1" "1" =
    JSON http.StatusOK
      (mkAPIResponse "success" ""
         (Some (mkSurveyResponse 1 1 "testuser" (Some "{}")
                  (1700000005 * time.Second) (1700000005 * time.Second) false)) []).
Proof.
  assert (Hs : is_Some (surveys db1 !! 1)) by (vm_compute; eauto).
  assert (Hlen : 3 ≤ len "testuser" ≤ 100) by (vm_compute; split; discriminate).
  exact (proj1 (created_response_reads_back db1 (t0 + 5 * time.Second) "1" "1" 1
                  "testuser" "{}"
                  (mkSurveyResponse 1 1 "testuser" (Some "{}")
                     (1700000005 * time.Second) (1700000005 * time.Second) true)
                  (t0 + 30 * time.Hour) Atoi_1 Hs Hlen eq_refl Atoi_1)).
Defined.

(** ** Updating a response *)

(** X7. An accepted update can be read back and does not move the edit
    window: afterwards [getSurveyResponse] returns the new [response_data]
    with [UpdatedAt] at the timestamp of the update and [CreatedAt] as
    before, and an update attempted 24 hours or more after the original
    creation is still rejected as EditWindowExpired. *)
Theorem update_reads_back_and_keeps_window (db : DB) (now : time.Time)
    (surveyID responseID : string) (sID rID : Z) (r : survey_responses_row)
    (d : string) :
  strconv.Atoi surveyID = inr sID →
  strconv.Atoi responseID = inr rID →
  survey_responses db !! rID = Some r →
  survey_id r = sID →
  within_24_hours now (created_at r) = true →
  let db' := (updateSurveyResponse db now surveyID responseID
                (Decoded (mkUpdateResponseRequest (Some d)))).1 in
  (∀ now',
     getSurveyResponse db' now' surveyID responseID =
       JSON http.StatusOK
         (mkAPIResponse "success" ""
            (Some (mkSurveyResponse rID sID (user_identifier r) (Some d)
                     (created_at r) (sql.CURRENT_TIMESTAMP now)
                     (within_24_hours now' (created_at r)))) [])) ∧
  (∀ now' body',
     24 * time.Hour ≤ now' - created_at r →
     updateSurveyResponse db' now' surveyID responseID body' =
       (db', JSON http.StatusUnprocessableEntity
               (mkAPIResponse "error" "Response cannot be edited after 24 hours"
                  None []))).
Proof.
  intros HsID HrID Hrow Hsc Hw. cbn zeta.
  rewrite (updateSurveyResponse_stored _ _ _ _ _ _ _ HsID HrID Hrow Hsc), Hw.
  cbn [fst upd_ResponseData].
  set (db' := mkDB _ _ _ _).
  assert (Hrow' : survey_responses db' !! rID = Some (updated_row now r d))
    by (subst db'; cbn; by rewrite lookup_insert_eq).
  split.
  - intros now'.
    rewrite (getSurveyResponse_stored _ _ _ _ _ _ _ HsID HrID Hrow' Hsc).
    unfold set_Editable. cbn. by rewrite Hsc.
  - intros now' body' Hold.
    rewrite (updateSurveyResponse_stored _ _ _ _ _ _ _ HsID HrID Hrow' Hsc).
    cbn [updated_row created_at].
    destruct (within_24_hours now' (created_at r)) eqn:Hw'; [|done].
    apply within_24_hours_spec in Hw'. lia.
Qed.

Lemma update_reads_back_and_keeps_window_witness :
  within_24_hours (created_at row1 + 23 * time.Hour) (created_at row1) = true ∧
  Data (obj (getSurveyResponse
               (updateSurveyResponse db2 (created_at row1 + 23 * time.Hour) "1" "1"
                  (Decoded (mkUpdateResponseRequest (Some "[4]")))).1
               (created_at row1 + 25 * time.Hour) "1" "1")) =
    Some (mkSurveyResponse 1 1 "testuser" (Some "[4]")
            (1700000005 * time.Second) (1700082805 * time.Second) false).
Proof.
  assert (Hw : within_24_hours (created_at row1 + 23 * time.Hour) (created_at row1)
               = true) by reflexivity.
  split; [exact Hw|].
  rewrite (proj1 (update_reads_back_and_keeps_window db2
                    (created_at row1 + 23 * time.Hour) "1" "1" 1 1 row1 "[4]"
                    Atoi_1 Atoi_1 db2_row1 eq_refl Hw)
             (created_at row1 + 25 * time.Hour)).
  vm_compute. reflexivity.
Defined.

(** ** Listing the responses of a survey *)

(** X8. [getSurveyResponses], for a numeric id: 404 "Survey not found" when
    the survey does not exist; otherwise 200 with the responses whose
    [survey_id] is the id, each once and no other, by [updated_at]
    descending, each with [Editable] set by the 24-hour rule. A survey
    without responses yields the empty list, not NotFound. *)
Theorem getSurveyResponses_lists_the_survey (db : DB) (now : time.Time)
    (surveyID : string) (sID : Z) :
  strconv.Atoi surveyID = inr sID →
  (surveys db !! sID = None →
     getSurveyResponses db now surveyID =
       JSON http.StatusNotFound (mkAPIResponse "error" "Survey not found" None [])) ∧
  (is_Some (surveys db !! sID) →
     ∃ listed,
       getSurveyResponses db now surveyID =
         JSON http.StatusOK (mkAPIResponse "success" "" (Some listed) []) ∧
       Sorted (λ a b, b ≤ a) (UpdatedAt <$> listed) ∧
       NoDup (ID <$> listed) ∧
       (∀ resp, resp ∈ listed ↔
          ∃ r, survey_responses db !! ID resp = Some r ∧ survey_id r = sID ∧
               resp = mkSurveyResponse (ID resp) sID (user_identifier r)
                        (Some (response_data r)) (created_at r) (updated_at r)
                        (within_24_hours now (created_at r))) ∧
       ((∀ rid r, survey_responses db !! rid = Some r → survey_id r ≠ sID) →
          listed = [])).
Proof.
  intros HsID. unfold getSurveyResponses. rewrite HsID. split.
  - intros Hnone. by rewrite survey_exists_false.
  - intros Hs. rewrite survey_exists_true by done. cbn [negb].
    set (annotate := λ response : SurveyResponse,
           set_Editable response (within_24_hours now (CreatedAt response))).
    eexists. split; [reflexivity|].
    assert (Hmem : ∀ resp, resp ∈ annotate <$> select_responses_of_survey db sID ↔
              ∃ r, survey_responses db !! ID resp = Some r ∧ survey_id r = sID ∧
                   resp = mkSurveyResponse (ID resp) sID (user_identifier r)
                            (Some (response_data r)) (created_at r) (updated_at r)
                            (within_24_hours now (created_at r))).
    { intros resp. rewrite list_elem_of_fmap. unfold select_responses_of_survey.
      setoid_rewrite order_by_desc_perm. setoid_rewrite list_elem_of_fmap.
      unfold responses_referencing. setoid_rewrite list_elem_of_filter.
      split.
      - intros (r0 & -> & [rid r] & -> & Hsc & Hin%elem_of_map_to_list).
        exists r. unfold annotate, set_Editable. cbn in *.
        rewrite Hsc. by repeat split.
      - intros (r & Hrow & Hsc & Heq).
        exists (scan_response (ID resp, r)). split.
        + rewrite Heq at 1. unfold annotate, set_Editable. cbn. by rewrite Hsc.
        + exists (ID resp, r). split; [done|]. split; [done|].
          by apply elem_of_map_to_list. }
    split; [|split; [|split; [exact Hmem|]]].
    + rewrite <- list_fmap_compose. unfold select_responses_of_survey.
      assert (Hkey : ∀ l : list SurveyResponse,
                UpdatedAt ∘ annotate <$> l = UpdatedAt <$> l).
      { induction l as [|x l IH]; [done|]. cbn. by f_equal. }
      rewrite Hkey.
      apply (Sorted_fmap _ (sql.desc UpdatedAt)); [done|].
      apply order_by_desc_sorted.
    + rewrite <- list_fmap_compose. unfold select_responses_of_survey.
      assert (Hkey : ∀ l : list SurveyResponse, ID ∘ annotate <$> l = ID <$> l).
      { induction l as [|x l IH]; [done|]. cbn. by f_equal. }
      rewrite Hkey, order_by_desc_perm.
      assert (Hids : ∀ l : list (Z * survey_responses_row),
                ID <$> (scan_response <$> l) = l.*1).
      { induction l as [|x l IH]; [done|]. cbn. by f_equal. }
      rewrite Hids. unfold responses_referencing.
      eapply sublist_NoDup; [|apply fmap_sublist, sublist_filter].
      apply NoDup_fst_map_to_list.
    + intros Hnone.
      destruct (annotate <$> select_responses_of_survey db sID) as [|x l]; [done|].
      destruct (proj1 (Hmem x)) as (r & Hrow & Hsc & _); [left|].
      by destruct (Hnone _ _ Hrow).
Qed.

Lemma getSurveyResponses_lists_the_survey_witness :
  getSurveyResponses db2 t0 "2" =
    JSON http.StatusNotFound (mkAPIResponse "error" "Survey not found" None []).
Proof.
  apply (proj1 (getSurveyResponses_lists_the_survey db2 t0 "2" 2 Atoi_2)).
  vm_compute. reflexivity.
Defined.

(** ** Response counts across writes *)

Lemma count_after_insert (m : gmap Z survey_responses_row) (i k : Z)
    (x : survey_responses_row) :
  m !! i = None →
  List.length (filter (λ kr, survey_id kr.2 = k) (map_to_list (<[i:=x]> m))) =
    ((if decide (survey_id x = k) then 1 else 0) +
     List.length (filter (λ kr, survey_id kr.2 = k) (map_to_list m)))%nat.
Proof.
  intros Hnone. pose proof (map_to_list_insert m i x Hnone) as Hp.
  apply (filter_Permutation (λ kr, survey_id kr.2 = k)) in Hp.
  apply Permutation_length in Hp. rewrite Hp, filter_cons. cbn [snd].
  by case_decide.
Qed.

Lemma count_after_replace (m : gmap Z survey_responses_row) (i k : Z)
    (r x : survey_responses_row) :
  m !! i = Some r → survey_id x = survey_id r →
  List.length (filter (λ kr, survey_id kr.2 = k) (map_to_list (<[i:=x]> m))) =
    List.length (filter (λ kr, survey_id kr.2 = k) (map_to_list m)).
Proof.
  intros Hrow Hsame.
  rewrite <- (insert_delete_eq m i x).
  rewrite count_after_insert by apply lookup_delete_eq.
  pose proof (map_to_list_delete m i r Hrow) as Hp.
  apply (filter_Permutation (λ kr, survey_id kr.2 = k)) in Hp.
  apply Permutation_length in Hp. rewrite <- Hp, filter_cons. cbn [snd].
  rewrite Hsame. by case_decide.
Qed.

(** X9. A stored response is counted at once: after an accepted
    [createSurveyResponse], [getSurvey] reports for the survey of the path
    one response more than before, and for every other survey the same
    number as before. *)
Theorem submitted_response_is_counted (db : DB) (now : time.Time)
    (surveyID : string) (sID : Z) (uid d : string) (id : string) (n : Z) :
  strconv.Atoi surveyID = inr sID →
  is_Some (surveys db !! sID) →
  3 ≤ len uid ≤ 100 →
  strconv.Atoi id = inr n →
  let db' := (createSurveyResponse db now surveyID
                (Decoded (mkCreateResponseRequest uid (Some d)))).1 in
  ResponsesCount <$> Data (obj (getSurvey db' id)) =
    (λ c, if decide (n = sID) then c + 1 else c) <$>
      (ResponsesCount <$> Data (obj (getSurvey db id))).
Proof.
  intros HsID Hs Hlen Hid. cbn zeta.
  assert (Hu : uid ≠ "") by (intros He%len_zero; lia).
  rewrite (createSurveyResponse_bound _ _ _ sID) by done.
  rewrite bool_decide_eq_true_2 by done. cbn [fst].
  rewrite !(getSurvey_spec_aux _ id n Hid). cbn [surveys].
  destruct (surveys db !! n) as [s|]; [|done]. cbn.
  unfold responses_referencing. cbn [survey_responses].
  rewrite count_after_insert by apply new_rowid_fresh. cbn [survey_id].
  f_equal. destruct (decide (sID = n)), (decide (n = sID)); try congruence; lia.
Qed.

Lemma submitted_response_is_counted_witness :
  ResponsesCount <$> Data (obj (getSurvey db1 "1")) = Some 0 ∧
  ResponsesCount <$> Data (obj (getSurvey db2 "1")) = Some 1.
Proof.
  assert (Hs : is_Some (surveys db1 !! 1)) by (vm_compute; eauto).
  assert (Hlen : 3 ≤ len "testuser" ≤ 100) by (vm_compute; split; discriminate).
  assert (H0 : ResponsesCount <$> Data (obj (getSurvey db1 "1")) = Some 0)
    by (vm_compute; reflexivity).
  split; [exact H0|].
  pose proof (submitted_response_is_counted db1 (t0 + 5 * time.Second) "1" 1
                "testuser" "{}" "1" 1 Atoi_1 Hs Hlen Atoi_1) as H.
  cbn zeta in H. rewrite H0 in H. exact H.
Defined.

Lemma grouped_join_ext (db db' : DB) :
  surveys db' = surveys db →
  (∀ k, List.length (responses_referencing db' k) =
        List.length (responses_referencing db k)) →
  select_surveys db' = select_surveys db.
Proof.
  intros Hsurveys Hcount. unfold select_surveys. do 3 f_equal.
  apply map_eq. intros k. rewrite !grouped_join_lookup.
  by rewrite Hsurveys, Hcount.
Qed.

(** X10. Updating a response never changes what [getSurveys] returns:
    whatever the request and its outcome, the list of surveys and their
    response counts are the same after [updateSurveyResponse] as before. *)
Theorem update_leaves_the_survey_listing (db : DB) (now : time.Time)
    (surveyID responseID : string) (body : Body UpdateResponseRequest) :
  getSurveys (updateSurveyResponse db now surveyID responseID body).1 =
    getSurveys db.
Proof.
  destruct (updateSurveyResponse_db db now surveyID responseID body)
    as [->|(rID & r & d & Hrow & ->)]; [done|].
  unfold getSurveys. do 3 f_equal. apply grouped_join_ext; [done|].
  intros k. unfold responses_referencing. cbn [survey_responses].
  by apply count_after_replace with r.
Qed.

(** X11. Under referential integrity, the survey that [createSurvey] answers
    with is the entry [getSurveys] lists for it right afterwards, so the
    literal [0 as responses_count] of the reply is the live count; the
    list is otherwise the one from before the request. *)
Theorem created_survey_is_listed (db : DB) (now : time.Time)
    (body : Body CreateSurveyRequest) (survey : Survey) (before after : list Survey) :
  referential_integrity db →
  Data (obj (createSurvey db now body).2) = Some survey →
  Data (obj (getSurveys db)) = Some before →
  Data (obj (getSurveys (createSurvey db now body).1)) = Some after →
  after ≡ₚ survey :: before.
Proof.
  intros Hri Hdata [= <-] [= <-].
  assert (Hcase : ∃ t d,
            let id := sql.new_rowid (surveys db) (surveys_seq db) in
            let ts := sql.CURRENT_TIMESTAMP now in
            createSurvey db now body =
              (mkDB (<[id := mk_surveys_row t d ts ts]> (surveys db)) id
                 (survey_responses db) (survey_responses_seq db),
               JSON http.StatusCreated
                 (mkAPIResponse "success" "Survey created successfully"
                    (Some (mkSurvey id t d ts ts 0)) []))).
  { revert Hdata. unfold createSurvey.
    destruct (ShouldBindJSON_CreateSurveyRequest body) as [err|req]; [done|].
    destruct (0 <? _); [done|]. intros _.
    exists (req_Title req), (req_Description req).
    unfold insert_survey, select_created_survey. cbn.
    by rewrite lookup_insert_eq. }
  destruct Hcase as (t & d & Heq). cbn zeta in Heq. rewrite Heq in Hdata |- *.
  cbn in Hdata. injection Hdata as <-. cbn [fst].
  set (id := sql.new_rowid (surveys db) (surveys_seq db)).
  set (ts := sql.CURRENT_TIMESTAMP now).
  set (db' := mkDB _ _ _ _).
  assert (Hfresh : surveys db !! id = None) by apply new_rowid_fresh.
  assert (Hnoref : responses_referencing db id = []).
  { unfold responses_referencing.
    destruct (filter _ _) as [|[rid r] l] eqn:Hf; [done|].
    assert (Hin : (rid, r) ∈ filter (λ kr, survey_id kr.2 = id)
                    (map_to_list (survey_responses db))) by (rewrite Hf; left).
    apply list_elem_of_filter in Hin as [Href Hin%elem_of_map_to_list].
    destruct (Hri rid r Hin) as [s Hs]. cbn in Href. congruence. }
  apply NoDup_Permutation.
  - eapply NoDup_fmap_1, select_surveys_ids_NoDup.
  - apply NoDup_cons. split.
    + intros (s & Hs & _)%select_surveys_elem. cbn in Hs. congruence.
    + eapply NoDup_fmap_1, select_surveys_ids_NoDup.
  - intros sv. rewrite elem_of_cons, !select_surveys_elem.
    change (responses_referencing db' (Survey_ID sv))
      with (responses_referencing db (Survey_ID sv)).
    subst db'. cbn [surveys]. split.
    + intros (s & Hs & Hsv).
      destruct (decide (id = Survey_ID sv)) as [Hid|Hne].
      * left. rewrite <- Hid, lookup_insert_eq in Hs. injection Hs as <-.
        rewrite Hsv, <- Hid, Hnoref. done.
      * right. rewrite lookup_insert_ne in Hs by done. by exists s.
    + intros [->|(s & Hs & Hsv)].
      * exists (mk_surveys_row t d ts ts). cbn.
        rewrite lookup_insert_eq, Hnoref. done.
      * exists s. rewrite lookup_insert_ne by congruence. done.
Qed.

Lemma created_survey_is_listed_witness :
  let second :=
    mkSurvey 2 "Second" "Another" (1700003600 * time.Second)
      (1700003600 * time.Second) 0 in
  ∃ after,
    Data (obj (getSurveys
                 (createSurvey db2 (t0 + time.Hour)
                    (Decoded (mkCreateSurveyRequest "Second" "Another"))).1))
      = Some after ∧
    after ≡ₚ second ::
             [mkSurvey 1 "Test Survey" "Test Description"
                (1700000000 * time.Second) (1700000000 * time.Second) 1].
Proof.
  cbn zeta. eexists. split; [reflexivity|].
  apply (created_survey_is_listed db2 (t0 + time.Hour)
           (Decoded (mkCreateSurveyRequest "Second" "Another"))).
  - exact db2_integrity.
  - vm_compute. reflexivity.
  - vm_compute. reflexivity.
  - reflexivity.
Defined.

(** ** What the writing handlers never do *)

Local Ltac rows_unchanged :=
  split; [done|]; let r := fresh "r" in intros ? r ?; by exists r.

(** X12. No request deletes a row or rewrites what identifies it: after any
    [createSurvey], [createSurveyResponse] or [updateSurveyResponse],
    every survey row is still there unchanged, and every response row is
    still there with the same [survey_id], [user_identifier] and
    [created_at]. *)
Theorem requests_keep_rows_and_their_identity (db : DB) (now : time.Time)
    (rq : request) :
  (∀ id s, surveys db !! id = Some s → surveys (serve db now rq) !! id = Some s) ∧
  (∀ id r, survey_responses db !! id = Some r →
     ∃ r', survey_responses (serve db now rq) !! id = Some r' ∧
           survey_id r' = survey_id r ∧
           user_identifier r' = user_identifier r ∧
           created_at r' = created_at r).
Proof.
  destruct rq as [body|surveyID body|surveyID responseID body]; cbn [serve].
  - destruct (createSurvey_db db now body) as [->|(t & d & ->)]; [rows_unchanged|].
    cbn. split; [|intros id r Hrow; by exists r].
    intros id s Hs. rewrite lookup_insert_ne; [done|].
    intros Heq. rewrite <- Heq, new_rowid_fresh in Hs. done.
  - destruct (createSurveyResponse_db db now surveyID body)
      as [->|(sID & uid & data & db' & id' & Hs & Hins & ->)]; [rows_unchanged|].
    unfold insert_response in Hins.
    destruct (sql.bind_RawMessage data) as [d|]; [|done].
    injection Hins as <- <-. cbn. split; [done|].
    intros id r Hrow. exists r. split; [|done].
    rewrite lookup_insert_ne; [done|].
    intros Heq. rewrite <- Heq, new_rowid_fresh in Hrow. done.
  - destruct (updateSurveyResponse_db db now surveyID responseID body)
      as [->|(rID & r0 & d & Hrow0 & ->)]; [rows_unchanged|].
    cbn. split; [done|]. intros id r Hrow.
    destruct (decide (rID = id)) as [->|Hne].
    + rewrite lookup_insert_eq. exists (updated_row now r0 d).
      split; [done|]. rewrite Hrow0 in Hrow. by injection Hrow as <-.
    + rewrite lookup_insert_ne by done. by exists r.
Qed.

(** X13. Ids only grow: the id of a survey that [createSurvey] has created
    is above the last id handed out and above the id of every survey in
    the table, and becomes the last id handed out; likewise for the
    responses created by [createSurveyResponse]. *)
Theorem created_ids_exceed_all_earlier_ones (db : DB) (now : time.Time) :
  (∀ body survey,
     Data (obj (createSurvey db now body).2) = Some survey →
     surveys_seq db < Survey_ID survey ∧
     (∀ k, is_Some (surveys db !! k) → k < Survey_ID survey) ∧
     surveys_seq (createSurvey db now body).1 = Survey_ID survey) ∧
  (∀ surveyID body response,
     Data (obj (createSurveyResponse db now surveyID body).2) = Some response →
     survey_responses_seq db < ID response ∧
     (∀ k, is_Some (survey_responses db !! k) → k < ID response) ∧
     survey_responses_seq (createSurveyResponse db now surveyID body).1 =
       ID response).
Proof.
  split.
  - intros body survey. unfold createSurvey.
    destruct (ShouldBindJSON_CreateSurveyRequest body) as [err|req]; [done|].
    destruct (0 <? _); [done|].
    unfold insert_survey, select_created_survey. cbn.
    rewrite lookup_insert_eq. cbn. intros [= <-]. cbn.
    destruct (new_rowid_exceeds (surveys db) (surveys_seq db)) as (? & _ & ?).
    done.
  - intros surveyID body response. unfold createSurveyResponse.
    destruct (strconv.Atoi surveyID) as [err|sID]; [done|].
    destruct (negb (survey_exists db sID)); [done|].
    destruct (ShouldBindJSON_CreateResponseRequest body) as [err|req]; [done|].
    destruct (0 <? _); [done|].
    unfold insert_response, select_response_by_id.
    destruct (sql.bind_RawMessage (req_ResponseData req)) as [d|]; [|done]. cbn.
    rewrite lookup_insert_eq. cbn. intros [= <-]. cbn.
    destruct (new_rowid_exceeds (survey_responses db) (survey_responses_seq db))
      as (? & _ & ?).
    done.
Qed.

Lemma created_ids_exceed_all_earlier_ones_witness :
  let survey :=
    mkSurvey 2 "Second" "Another" (1700000000 * time.Second)
      (1700000000 * time.Second) 0 in
  Data (obj (createSurvey db2 t0
               (Decoded (mkCreateSurveyRequest "Second" "Another"))).2)
    = Some survey ∧
  surveys_seq db2 < Survey_ID survey.
Proof.
  cbn zeta.
  assert (Hdata : Data (obj (createSurvey db2 t0
                               (Decoded (mkCreateSurveyRequest "Second" "Another"))).2)
                  = Some (mkSurvey 2 "Second" "Another" (1700000000 * time.Second)
                            (1700000000 * time.Second) 0))
    by (vm_compute; reflexivity).
  split; [exact Hdata|].
  exact (proj1 (proj1 (created_ids_exceed_all_earlier_ones db2 t0) _ _ Hdata)).
Defined.

(** ** More on the responses of a user *)

(** X14. The list of [getUserResponses] is ordered by [updated_at]
    descending, and each entry embeds its parent survey with the id, title
    and description of the survey row; the other fields of the embedded
    survey are never filled in: its [ResponsesCount] is 0 and its
    timestamps are the zero time, whatever the store holds. *)
Theorem getUserResponses_order_and_embedded_survey (db : DB) (now : time.Time)
    (uid : string) :
  ∃ listed,
    Data (obj (getUserResponses db now uid)) = Some listed ∧
    Sorted (λ a b, b ≤ a) (UR_UpdatedAt <$> listed) ∧
    (∀ ur, ur ∈ listed →
       ∃ r s, survey_responses db !! UR_ID ur = Some r ∧
              surveys db !! survey_id r = Some s ∧
              UR_Survey ur =
                mkSurvey (survey_id r) (title s) (description s)
                  time.zero time.zero 0).
Proof.
  eexists. split; [reflexivity|].
  set (annotate := λ response : UserResponse,
         set_UR_Editable response (within_24_hours now (UR_CreatedAt response))).
  split.
  - rewrite <- list_fmap_compose.
    assert (Hkey : ∀ l : list UserResponse,
              UR_UpdatedAt ∘ annotate <$> l = UR_UpdatedAt <$> l).
    { induction l as [|x l IH]; [done|]. cbn. by f_equal. }
    rewrite Hkey. unfold select_user_responses.
    apply (Sorted_fmap _ (sql.desc UR_UpdatedAt)); [done|].
    apply order_by_desc_sorted.
  - intros ur (ur0 & -> & Hin)%list_elem_of_fmap.
    apply select_user_responses_elem in Hin as (r & s & Hrow & _ & Hs & Heq).
    exists r, s. rewrite Heq. by cbn.
Qed.

(** X15. Referential integrity is an invariant of the handlers: in every
    database that requests lead to from the empty one, each response row
    references an existing survey row, although the foreign key itself
    is not enforced. *)
Theorem reachable_stores_have_integrity (db : DB) :
  reachable db →
  ∀ rid r, survey_responses db !! rid = Some r → is_Some (surveys db !! survey_id r).
Proof.
  induction 1 as [|db now rq _ IH].
  - intros rid r Hrow. cbn in Hrow. by rewrite lookup_empty in Hrow.
  - by apply (serve_preserves_integrity db now rq).
Qed.

Lemma reachable_stores_have_integrity_witness :
  reachable db2 ∧ is_Some (surveys db2 !! survey_id row1).
Proof.
  split; [exact db2_reachable|].
  exact (reachable_stores_have_integrity db2 db2_reachable 1 row1 db2_row1).
Defined.

(** ** The sample-data program *)

Lemma max_rowid_le {A} (tbl : gmap Z A) (b : Z) :
  0 ≤ b → (∀ k, is_Some (tbl !! k) → k ≤ b) → sql.max_rowid tbl ≤ b.
Proof.
  intros Hb Hall. unfold sql.max_rowid.
  assert (Hl : ∀ kx, kx ∈ map_to_list tbl → kx.1 ≤ b).
  { intros [k x] Hin%elem_of_map_to_list. apply Hall. eauto. }
  induction (map_to_list tbl) as [|[k x] l IH]; cbn; [done|].
  assert (k ≤ b) by (apply (Hl (k, x)); left).
  assert (foldr Z.max 0 l.*1 ≤ b) by (apply IH; intros kx Hkx; apply Hl; by right).
  lia.
Qed.

Lemma new_rowid_next {A} (tbl : gmap Z A) (seq : Z) :
  0 ≤ seq → (∀ k, is_Some (tbl !! k) → k ≤ seq) →
  sql.new_rowid tbl seq = seq + 1.
Proof.
  intros Hseq Hall. pose proof (max_rowid_le tbl seq Hseq Hall).
  unfold sql.new_rowid. lia.
Qed.

Lemma new_rowid_empty {A} (seq : Z) :
  sql.new_rowid (∅ : gmap Z A) seq = Z.max seq 0 + 1.
Proof. unfold sql.new_rowid, sql.max_rowid. by rewrite map_to_list_empty. Qed.

Lemma keys_after_insert {A} (tbl : gmap Z A) (b : Z) (x : A) :
  (∀ k, is_Some (tbl !! k) → k ≤ b) →
  ∀ k, is_Some (<[b + 1 := x]> tbl !! k) → k ≤ b + 1.
Proof.
  intros Hall k Hk. destruct (decide (b + 1 = k)) as [<-|Hne]; [lia|].
  rewrite lookup_insert_ne in Hk by done. specialize (Hall k Hk). lia.
Qed.

Lemma insert_survey_next (db : DB) (now : time.Time) (t d : string) :
  0 ≤ surveys_seq db →
  (∀ k, is_Some (surveys db !! k) → k ≤ surveys_seq db) →
  insert_survey db now t d =
    (mkDB (<[surveys_seq db + 1 :=
               mk_surveys_row t d (sql.CURRENT_TIMESTAMP now)
                 (sql.CURRENT_TIMESTAMP now)]> (surveys db))
       (surveys_seq db + 1) (survey_responses db) (survey_responses_seq db),
     surveys_seq db + 1).
Proof. intros Hseq Hall. unfold insert_survey. by rewrite new_rowid_next. Qed.

Lemma insert_sample_response_next (db : DB) (now : time.Time) (sid : Z)
    (uid : string) (data : list (string * string)) :
  0 ≤ survey_responses_seq db →
  (∀ k, is_Some (survey_responses db !! k) → k ≤ survey_responses_seq db) →
  seed.insert_sample_response db now sid uid data =
    inr (mkDB (surveys db) (surveys_seq db)
           (<[survey_responses_seq db + 1 :=
                mk_survey_responses_row sid uid (seed.Marshal data)
                  (sql.CURRENT_TIMESTAMP now) (sql.CURRENT_TIMESTAMP now)]>
              (survey_responses db))
           (survey_responses_seq db + 1)).
Proof.
  intros Hseq Hall. unfold seed.insert_sample_response, insert_response.
  cbn [sql.bind_RawMessage]. by rewrite new_rowid_next.
Qed.

Lemma no_keys_in_empty {A} (b : Z) : ∀ k, is_Some ((∅ : gmap Z A) !! k) → k ≤ b.
Proof. intros k [x Hx]. by rewrite lookup_empty in Hx. Qed.

(** The database [seed.main] leaves, in full. *)
Lemma seed_main_spec (db : DB) (now : time.Time) :
  let n := Z.max (surveys_seq db) 0 in
  let m := Z.max (survey_responses_seq db) 0 in
  let ts := sql.CURRENT_TIMESTAMP now in
  let survey (data : string * string) := mk_surveys_row data.1 data.2 ts ts in
  let response sid uid data :=
    mk_survey_responses_row sid uid (seed.Marshal data) ts ts in
  seed.main db now =
    inr (mkDB
           (<[n + 3 := survey seed.survey3Data]>
              (<[n + 2 := survey seed.survey2Data]>
                 (<[n + 1 := survey seed.survey1Data]> ∅)))
           (n + 3)
           (<[m + 4 := response (n + 3) "customer789" seed.response4Data]>
              (<[m + 3 := response (n + 2) "employee001" seed.response3Data]>
                 (<[m + 2 := response (n + 1) "user456" seed.response2Data]>
                    (<[m + 1 := response (n + 1) "user123" seed.response1Data]> ∅))))
           (m + 4),
         (3, 4)).
Proof.
  intros n m ts survey response.
  assert (Hn : 0 ≤ n) by (subst n; lia). assert (Hm : 0 ≤ m) by (subst m; lia).
  unfold seed.main. cbv zeta.
  (* the first survey goes into an empty table *)
  assert (H1 : seed.insert_sample_survey
                 (seed.delete_surveys (seed.delete_survey_responses db)) now
                 seed.survey1Data =
               (mkDB (<[n + 1 := survey seed.survey1Data]> ∅) (n + 1) ∅
                  (survey_responses_seq db), n + 1)).
  { unfold seed.insert_sample_survey, insert_survey, seed.delete_surveys,
      seed.delete_survey_responses.
    cbn [surveys surveys_seq survey_responses survey_responses_seq].
    by rewrite new_rowid_empty. }
  rewrite H1. clear H1. cbv iota beta.
  unfold seed.insert_sample_survey at 1.
  rewrite insert_survey_next;
    cbn [surveys surveys_seq survey_responses survey_responses_seq];
    [|lia|by apply keys_after_insert, no_keys_in_empty].
  cbv iota beta.
  unfold seed.insert_sample_survey at 1.
  rewrite insert_survey_next;
    cbn [surveys surveys_seq survey_responses survey_responses_seq];
    [|lia|by do 2 apply keys_after_insert; apply no_keys_in_empty].
  cbv iota beta.
  (* the first response: the table is empty, the sequence is not rewound *)
  assert (H4 : ∀ dbs seqs sid uid data,
            seed.insert_sample_response
              (mkDB dbs seqs ∅ (survey_responses_seq db)) now sid uid data =
            inr (mkDB dbs seqs (<[m + 1 := response sid uid data]> ∅) (m + 1))).
  { intros. unfold seed.insert_sample_response, insert_response.
    cbn [sql.bind_RawMessage survey_responses survey_responses_seq surveys
           surveys_seq].
    by rewrite new_rowid_empty. }
  rewrite H4. clear H4.
  rewrite insert_sample_response_next;
    cbn [surveys surveys_seq survey_responses survey_responses_seq];
    [|lia|by apply keys_after_insert, no_keys_in_empty].
  rewrite insert_sample_response_next;
    cbn [surveys surveys_seq survey_responses survey_responses_seq];
    [|lia|by do 2 apply keys_after_insert; apply no_keys_in_empty].
  rewrite insert_sample_response_next;
    cbn [surveys surveys_seq survey_responses survey_responses_seq];
    [|lia|by do 3 apply keys_after_insert; apply no_keys_in_empty].
  replace (n + 1 + 1) with (n + 2) by lia. replace (n + 2 + 1) with (n + 3) by lia.
  replace (m + 1 + 1) with (m + 2) by lia. replace (m + 2 + 1) with (m + 3) by lia.
  replace (m + 3 + 1) with (m + 4) by lia.
  do 2 f_equal. f_equal.
  - rewrite !map_size_insert_None; [by rewrite map_size_empty|..];
      rewrite ?lookup_insert_ne by lia; apply lookup_empty.
  - rewrite !map_size_insert_None; [by rewrite map_size_empty|..];
      rewrite ?lookup_insert_ne by lia; apply lookup_empty.
Qed.

(** X16. Whatever the database held, [seed.main] runs to its end without
    a fatal error and reports 3 surveys and 4 responses: both tables then
    hold the sample rows only, every response references one of the new
    surveys, and, as deleting rows does not rewind the AUTOINCREMENT
    sequences, every new id lies above the last id handed out before. *)
Theorem seed_replaces_the_content (db : DB) (now : time.Time) :
  ∃ db',
    seed.main db now = inr (db', (3, 4)) ∧
    size (surveys db') = 3%nat ∧
    size (survey_responses db') = 4%nat ∧
    (∀ id s, surveys db' !! id = Some s →
       surveys_seq db < id ∧
       (title s, description s) ∈
         [seed.survey1Data; seed.survey2Data; seed.survey3Data]) ∧
    (∀ id r, survey_responses db' !! id = Some r →
       survey_responses_seq db < id ∧
       is_Some (surveys db' !! survey_id r) ∧
       user_identifier r ∈ ["user123"; "user456"; "employee001"; "customer789"]).
Proof.
  eexists. split; [apply seed_main_spec|]. cbn [surveys survey_responses].
  set (n := Z.max (surveys_seq db) 0). set (m := Z.max (survey_responses_seq db) 0).
  assert (Hn : surveys_seq db ≤ n) by (subst n; lia).
  assert (Hm : survey_responses_seq db ≤ m) by (subst m; lia).
  split.
  { rewrite !map_size_insert_None; [by rewrite map_size_empty|..];
      rewrite ?lookup_insert_ne by lia; apply lookup_empty. }
  split.
  { rewrite !map_size_insert_None; [by rewrite map_size_empty|..];
      rewrite ?lookup_insert_ne by lia; apply lookup_empty. }
  split.
  - intros id s Hs.
    repeat (apply lookup_insert_Some in Hs as [[<- <-]|[_ Hs]];
            [split; [lia|cbn; set_solver]|]).
    by rewrite lookup_empty in Hs.
  - intros id r Hr.
    repeat (apply lookup_insert_Some in Hr as [[<- <-]|[_ Hr]];
            [split; [lia|split; [|cbn; set_solver]]; cbn [survey_id];
             rewrite ?lookup_insert_eq, ?lookup_insert_ne by lia;
             rewrite ?lookup_insert_eq, ?lookup_insert_ne by lia; eauto|]).
    by rewrite lookup_empty in Hr.
Qed.

Lemma seed_counts (n m k : Z) (r1 r2 r3 r4 : survey_responses_row) :
  survey_id r1 = n + 1 → survey_id r2 = n + 1 →
  survey_id r3 = n + 2 → survey_id r4 = n + 3 →
  Z.of_nat
    (List.length
       (filter (λ kr, survey_id kr.2 = k)
          (map_to_list
             (<[m + 4 := r4]> (<[m + 3 := r3]> (<[m + 2 := r2]>
                (<[m + 1 := r1]> (∅ : gmap Z survey_responses_row)))))))) =
    if decide (k = n + 1) then 2
    else if decide (k = n + 2) then 1
    else if decide (k = n + 3) then 1 else 0.
Proof.
  intros H1 H2 H3 H4.
  rewrite !count_after_insert
    by (rewrite ?lookup_insert_ne by lia; apply lookup_empty).
  rewrite map_to_list_empty, H1, H2, H3, H4. cbn [filter list_filter List.length].
  repeat case_decide; lia.
Qed.

(** X17. Right after [seed.main], [getSurveys] lists the three sample
    surveys, the customer satisfaction survey with two responses and the
    other two with one each. *)
Theorem seeded_surveys_are_listed_with_counts (db : DB) (now : time.Time) :
  ∃ db' counts listed,
    seed.main db now = inr (db', counts) ∧
    Data (obj (getSurveys db')) = Some listed ∧
    (λ sv, (Title sv, ResponsesCount sv)) <$> listed ≡ₚ
      [("Customer Satisfaction Survey", 2);
       ("Employee Engagement Survey", 1);
       ("Product Feedback Form", 1)].
Proof.
  eexists _, _, _. split; [apply seed_main_spec|]. split; [reflexivity|].
  set (n := Z.max (surveys_seq db) 0). set (m := Z.max (survey_responses_seq db) 0).
  set (ts := sql.CURRENT_TIMESTAMP now).
  set (db' := mkDB _ _ _ _).
  assert (Hcount : ∀ k, Z.of_nat (List.length (responses_referencing db' k)) =
            if decide (k = n + 1) then 2
            else if decide (k = n + 2) then 1
            else if decide (k = n + 3) then 1 else 0).
  { intros k. unfold responses_referencing. subst db'. cbn [survey_responses].
    by apply seed_counts. }
  assert (Hperm : select_surveys db' ≡ₚ
            [mkSurvey (n + 1) seed.survey1Data.1 seed.survey1Data.2 ts ts 2;
             mkSurvey (n + 2) seed.survey2Data.1 seed.survey2Data.2 ts ts 1;
             mkSurvey (n + 3) seed.survey3Data.1 seed.survey3Data.2 ts ts 1]).
  { apply NoDup_Permutation.
    - eapply NoDup_fmap_1, select_surveys_ids_NoDup.
    - apply (NoDup_fmap_1 Survey_ID). cbn.
      repeat (apply NoDup_cons; split;
                [rewrite ?elem_of_cons, elem_of_nil; lia|]).
      apply NoDup_nil_2.
    - intros sv. rewrite select_surveys_elem. setoid_rewrite Hcount.
      subst db'. cbn [surveys]. split.
      + intros (s & Hs & ->).
        repeat (apply lookup_insert_Some in Hs as [[<- <-]|[_ Hs]];
                [cbn; repeat case_decide; try lia; set_solver|]).
        by rewrite lookup_empty in Hs.
      + rewrite !elem_of_cons, elem_of_nil.
        intros [->|[->|[->|[]]]]; cbn [Survey_ID];
          eexists; (split;
            [rewrite ?lookup_insert_eq, ?lookup_insert_ne by lia;
             rewrite ?lookup_insert_eq, ?lookup_insert_ne by lia;
             rewrite ?lookup_insert_eq; reflexivity
            |cbn; repeat case_decide; try lia; reflexivity]). }
  cbn [getSurveys obj Data]. by rewrite Hperm.
Qed.

(** ** Updates are scoped by the survey *)

(** X18. [updateSurveyResponse] reaches a response only through its own
    survey: when the response id exists but under another survey, the
    reply is 404 "Survey response not found" and nothing is written,
    however recent the response and whatever the payload. *)
Theorem update_through_another_survey_is_refused (db : DB) (now : time.Time)
    (surveyID responseID : string) (sID rID : Z) (r : survey_responses_row)
    (body : Body UpdateResponseRequest) :
  strconv.Atoi surveyID = inr sID →
  strconv.Atoi responseID = inr rID →
  survey_responses db !! rID = Some r →
  survey_id r ≠ sID →
  updateSurveyResponse db now surveyID responseID body =
    (db, JSON http.StatusNotFound
           (mkAPIResponse "error" "Survey response not found" None [])).
Proof.
  intros HsID HrID Hrow Hne.
  apply (updateSurveyResponse_absent _ _ _ _ sID rID); [done..|].
  intros r' Hrow'. congruence.
Qed.

Lemma update_through_another_survey_is_refused_witness :
  survey_id row1 ≠ 2 ∧
  updateSurveyResponse db2 (t0 + time.Minute) "2" "1"
    (Decoded (mkUpdateResponseRequest (Some "[4]"))) =
    (db2, JSON http.StatusNotFound
            (mkAPIResponse "error" "Survey response not found" None [])).
Proof.
  assert (Hne : survey_id row1 ≠ 2) by discriminate.
  split; [exact Hne|].
  exact (update_through_another_survey_is_refused db2 (t0 + time.Minute) "2" "1"
           2 1 row1 _ Atoi_2 Atoi_1 db2_row1 Hne).
Defined.

(** ** A stored response in the two listings *)

Lemma select_responses_of_survey_elem (db : DB) (sID : Z) (resp : SurveyResponse) :
  resp ∈ select_responses_of_survey db sID ↔
    ∃ r, survey_responses db !! ID resp = Some r ∧ survey_id r = sID ∧
         resp = scan_response (ID resp, r).
Proof.
  unfold select_responses_of_survey, responses_referencing.
  rewrite order_by_desc_perm, list_elem_of_fmap.
  setoid_rewrite list_elem_of_filter. split.
  - intros ([rid r] & -> & Hsc & Hin%elem_of_map_to_list). by exists r.
  - intros (r & Hrow & Hsc & Heq). exists (ID resp, r).
    split; [done|]. split; [done|]. by apply elem_of_map_to_list.
Qed.

(** X19. A response that [createSurveyResponse] has stored shows up in both
    listings: [getSurveyResponses] of its survey and [getUserResponses] of
    its user identifier each contain an entry with the id of the reply and
    the payload as sent, the latter with the title of the parent survey. *)
Theorem created_response_is_listed (db : DB) (now now' : time.Time)
    (surveyID : string) (sID : Z) (s : surveys_row) (uid d : string)
    (response : SurveyResponse) :
  strconv.Atoi surveyID = inr sID →
  surveys db !! sID = Some s →
  3 ≤ len uid ≤ 100 →
  let res := createSurveyResponse db now surveyID
               (Decoded (mkCreateResponseRequest uid (Some d))) in
  Data (obj res.2) = Some response →
  (∃ listed,
     Data (obj (getSurveyResponses res.1 now' surveyID)) = Some listed ∧
     set_Editable response (within_24_hours now' (CreatedAt response)) ∈ listed) ∧
  (∃ listed ur,
     Data (obj (getUserResponses res.1 now' uid)) = Some listed ∧
     ur ∈ listed ∧ UR_ID ur = ID response ∧
     UR_ResponseData ur = Some d ∧
     Survey_ID (UR_Survey ur) = sID ∧ Title (UR_Survey ur) = title s).
Proof.
  intros HsID Hs Hlen. cbn zeta.
  assert (Hu : uid ≠ "") by (intros He%len_zero; lia).
  rewrite (createSurveyResponse_bound _ _ _ sID) by eauto.
  rewrite bool_decide_eq_true_2 by done. cbn [fst snd obj Data].
  intros [= <-].
  set (id := sql.new_rowid (survey_responses db) (survey_responses_seq db)).
  set (ts := sql.CURRENT_TIMESTAMP now).
  set (row := mk_survey_responses_row sID uid d ts ts).
  set (db' := mkDB _ _ _ _).
  assert (Hrow : survey_responses db' !! id = Some row)
    by (subst db'; cbn; by rewrite lookup_insert_eq).
  split.
  - unfold getSurveyResponses. rewrite HsID, survey_exists_true by (subst db'; eauto).
    cbn [negb obj Data]. eexists. split; [reflexivity|].
    apply list_elem_of_fmap. exists (scan_response (id, row)). split; [done|].
    apply select_responses_of_survey_elem. by exists row.
  - eexists _, (set_UR_Editable
                  (mkUserResponse id
                     (mkSurvey sID (title s) (description s) time.zero time.zero 0)
                     uid (Some d) ts ts false)
                  (within_24_hours now' ts)).
    split; [reflexivity|]. split; [|done].
    apply list_elem_of_fmap.
    exists (mkUserResponse id
              (mkSurvey sID (title s) (description s) time.zero time.zero 0)
              uid (Some d) ts ts false).
    split; [done|].
    apply select_user_responses_elem. exists row, s. by repeat split.
Qed.

Lemma created_response_is_listed_witness :
  ∃ listed,
    Data (obj (getSurveyResponses db2 (t0 + 30 * time.Hour) "1")) = Some listed ∧
    mkSurveyResponse 1 1 "testuser" (Some "{}")
      (1700000005 * time.Second) (1700000005 * time.Second) false ∈ listed.
Proof.
  assert (Hs : surveys db1 !! 1 =
               Some (mk_surveys_row "Test Survey" "Test Description"
                       (1700000000 * time.Second) (1700000000 * time.Second)))
    by (vm_compute; reflexivity).
  assert (Hlen : 3 ≤ len "testuser" ≤ 100) by (vm_compute; split; discriminate).
  exact (proj1 (created_response_is_listed db1 (t0 + 5 * time.Second)
                  (t0 + 30 * time.Hour) "1" 1 _
                  "testuser" "{}"
                  (mkSurveyResponse 1 1 "testuser" (Some "{}")
                     (1700000005 * time.Second) (1700000005 * time.Second) true)
                  Atoi_1 Hs Hlen eq_refl)).
Defined.
